(** * cubes/providers.py: model metadata assembly, resolution and validation

    A shallow embedding of the logical-model providers module: the bundle
    reader [read_model_metadata_bundle], the provider-default merge
    [_merge_metadata], the provider constructor, the accessors
    [cube_options] and [dimension_metadata], the cube resolution
    [cube_metadata] and the metadata validator [ModelMetadataValidator].

    Model metadata is JSON as [json.load] produces it.  Python dictionaries
    are finite maps with string keys, Python exceptions are values of [exn],
    and the one place where a method updates an object held by the provider
    (the model's [browser_options] in [cube_metadata]) is written as a
    state transition on the provider. *)

From stdpp Require Import gmap strings list fin_maps pretty.
From Stdlib Require Import ZArith String Ascii.
Local Open Scope string_scope.

(** ** Python values and the builtins the module relies on *)

Module Py.

(** JSON documents.  Numbers are the integers; floating point values are
    outside the embedding. *)
#[warnings="-register-all"]
Inductive json : Type :=
  | JNull
  | JBool (b : bool)
  | JNum (n : Z)
  | JStr (s : string)
  | JList (l : list json)
  | JDict (d : gmap string json).

Abbreviation dict := (gmap string json).

(** Hashable values, as they serve as keys of the dictionaries the provider
    builds itself ([cubes_metadata], [dimensions_metadata], the join index).
    [True] and [1] hash and compare alike, hence booleans become [KInt]. *)
Inductive pykey : Type :=
  | KNone
  | KInt (n : Z)
  | KStr (s : string).

Global Instance pykey_eq_dec : EqDecision pykey.
Proof. solve_decision. Defined.

Definition pykey_enc (k : pykey) : unit + (Z + string) :=
  match k with
  | KNone => inl tt
  | KInt n => inr (inl n)
  | KStr s => inr (inr s)
  end.

Definition pykey_dec (x : unit + (Z + string)) : pykey :=
  match x with
  | inl _ => KNone
  | inr (inl n) => KInt n
  | inr (inr s) => KStr s
  end.

Global Instance pykey_countable : Countable pykey.
Proof. apply (inj_countable' pykey_enc pykey_dec). by intros []. Defined.

(** The messages of the [ModelError]s raised in this module, with the values
    formatted into them. *)
Inductive model_error : Type :=
  | MainModelInfoDoesNotExist (info_path : string)
  | DimensionFileHasNoNameKey (obj_path : string)
  | CubeFileHasNoNameKey (obj_path : string)
  | CubeDefinedMultipleTimes (name : json) (obj_path : string)
  | MissingJoinNameKey
  | DuplicateJoinName (jname : json)
  | NoMasterInJoin (cube : json) (join_name : json)
  | NoDetailInJoin (cube : json) (join_name : json).

Inductive exn : Type :=
  | SyntaxError (url : string)
  | IOError (path : string)
  | ArgumentError
  | ModelError (m : model_error)
  | NoSuchCubeError (name : string)
  | NoSuchDimensionError (name : string)
  | KeyError (key : string)
  | TypeError
  | AttributeError
  | ValueError.

Inductive Result (A : Type) : Type :=
  | Ok (a : A)
  | Raise (e : exn).
Arguments Ok {A} a.
Arguments Raise {A} e.

(** Sequencing: an exception ends the computation. *)
Definition rbind {A B : Type} (m : Result A) (f : A → Result B) : Result B :=
  match m with
  | Ok a => f a
  | Raise e => Raise e
  end.

Declare Scope result_scope.
Delimit Scope result_scope with R.
Bind Scope result_scope with Result.
Notation "x <- m ; k" := (rbind m (λ x, k))
  (at level 20, m at level 100, k at level 200, only parsing) : result_scope.
Notation "' x <- m ; k" := (rbind m (λ x, k))
  (at level 20, x pattern, m at level 100, k at level 200, only parsing)
  : result_scope.
Open Scope result_scope.

(** [bool(x)] *)
Definition truthy (x : json) : bool :=
  match x with
  | JNull => false
  | JBool b => b
  | JNum n => negb (n =? 0)%Z
  | JStr s => negb (String.eqb s "")
  | JList l => match l with [] => false | _ => true end
  | JDict d => negb (Nat.eqb (size d) 0)
  end.

(** [a == b]: structural, with [True == 1] and [False == 0]. *)
Fixpoint py_eq (a b : json) {struct a} : bool :=
  match a, b with
  | JNull, JNull => true
  | JBool x, JBool y => Bool.eqb x y
  | JBool x, JNum n => (Z.b2z x =? n)%Z
  | JNum n, JBool x => (n =? Z.b2z x)%Z
  | JNum n, JNum m => (n =? m)%Z
  | JStr s, JStr t => String.eqb s t
  | JList l, JList l' =>
      (fix go (l l' : list json) : bool :=
         match l, l' with
         | [], [] => true
         | x :: l, y :: l' => py_eq x y && go l l'
         | _, _ => false
         end) l l'
  | JDict d, JDict d' =>
      Nat.eqb (size d) (size d') &&
      map_fold (λ k v acc,
                acc && match d' !! k with
                       | Some v' => py_eq v v'
                       | None => false
                       end) true d
  | _, _ => false
  end.

(** [hash(x)], which dictionary lookups and stores apply to their key. *)
Definition hash_key (x : json) : Result pykey :=
  match x with
  | JNull => Ok KNone
  | JBool b => Ok (KInt (Z.b2z b))
  | JNum n => Ok (KInt n)
  | JStr s => Ok (KStr s)
  | JList _ | JDict _ => Raise TypeError
  end.

(** The characters of a string, each as a string of length one. *)
Fixpoint chars (s : string) : list json :=
  match s with
  | EmptyString => []
  | String c s' => JStr (String c EmptyString) :: chars s'
  end.

(** [s in t] on strings. *)
Definition is_substring (s t : string) : bool :=
  match String.index 0 s t with
  | Some _ => true
  | None => false
  end.

(** [x in c] *)
Definition py_in (x c : json) : Result bool :=
  match c with
  | JList l => Ok (existsb (py_eq x) l)
  | JDict d =>
      match x with
      | JStr s => Ok (bool_decide (is_Some (d !! s)))
      | JList _ | JDict _ => Raise TypeError
      | _ => Ok false
      end
  | JStr t =>
      match x with
      | JStr s => Ok (is_substring s t)
      | _ => Raise TypeError
      end
  | _ => Raise TypeError
  end.

(** [o[k]] for a string [k] *)
Definition getitem (o : json) (k : string) : Result json :=
  match o with
  | JDict d =>
      match d !! k with
      | Some v => Ok v
      | None => Raise (KeyError k)
      end
  | _ => Raise TypeError
  end.

(** [o[k] = v] for a string [k] *)
Definition setitem (o : json) (k : string) (v : json) : Result json :=
  match o with
  | JDict d => Ok (JDict (<[k := v]> d))
  | _ => Raise TypeError
  end.

(** [o.append(v)] *)
Definition append (o : json) (v : json) : Result json :=
  match o with
  | JList l => Ok (JList (l ++ [v]))
  | _ => Raise AttributeError
  end.

(** [o.get(k, dflt)]; [o.get(k)] is [get o k JNull]. *)
Definition get (o : json) (k : string) (dflt : json) : Result json :=
  match o with
  | JDict d => Ok (default dflt (d !! k))
  | _ => Raise AttributeError
  end.

(** [d.get(k, dflt)] on a value known to be a dictionary. *)
Definition dget (d : dict) (k : string) (dflt : json) : json :=
  default dflt (d !! k).

(** [d.pop(k, dflt)] on a dictionary: the value and the dictionary left. *)
Definition dpop (d : dict) (k : string) (dflt : json) : json * dict :=
  (default dflt (d !! k), delete k d).

(** [for x in o]: the elements iterated over. *)
Definition iter (o : json) : Result (list json) :=
  match o with
  | JList l => Ok l
  | JStr s => Ok (chars s)
  | JDict d => Ok (JStr <$> (map_to_list d).*1)
  | _ => Raise TypeError
  end.

(** The argument of [dict(x)] and of [d.update(x)], read as a dictionary.
    JSON objects are taken as they are and the empty list and the empty
    string contribute nothing.  Python also accepts a non-empty sequence of
    key/value pairs; model metadata carries objects in these places and the
    embedding reports every other value as a [TypeError]. *)
Definition as_dict (x : json) : Result dict :=
  match x with
  | JDict d => Ok d
  | JList [] => Ok ∅
  | JStr "" => Ok ∅
  | _ => Raise TypeError
  end.

(** [o.update(x)]: the keys of [x] win. *)
Definition update (o : json) (x : json) : Result dict :=
  match o with
  | JDict d => u <- as_dict x; Ok (u ∪ d)
  | _ => Raise AttributeError
  end.

(** [a + b] *)
Definition add (a b : json) : Result json :=
  match a, b with
  | JList l, JList l' => Ok (JList (l ++ l'))
  | JStr s, JStr t => Ok (JStr (s +:+ t))
  | JNum n, JNum m => Ok (JNum (n + m))
  | JNum n, JBool y => Ok (JNum (n + Z.b2z y))
  | JBool x, JNum m => Ok (JNum (Z.b2z x + m))
  | JBool x, JBool y => Ok (JNum (Z.b2z x + Z.b2z y))
  | _, _ => Raise TypeError
  end.

End Py.
Export Py.

(** Left-to-right loop over a list with an accumulator, stopping at the
    first exception. *)
Fixpoint foldM {A B : Type} (f : B → A → Result B) (l : list A) (b : B)
  : Result B :=
  match l with
  | [] => Ok b
  | x :: l' => b' <- f b x; foldM f l' b'
  end.

(** A list comprehension [[f(x) for x in l]]: left to right, stopping at the
    first exception. *)
Fixpoint mapM {A B : Type} (f : A → Result B) (l : list A)
  : Result (list B) :=
  match l with
  | [] => Ok []
  | x :: l' => y <- f x; ys <- mapM f l'; Ok (y :: ys)
  end.

(** ** Bundle reader *)

Module Bundle.

(** What the reader sees of the operating system: [os.path.isdir],
    [os.path.exists], [os.walk] (directory name, sub-directory names and
    file names of each directory visited, in walk order) and the resource
    behind a location: [None] when it cannot be opened, [Some None] when its
    content is not JSON. *)
Record FileSystem : Type := {
  isdir : string → bool;
  exists_ : string → bool;
  walk : string → list (string * list string * list string);
  resource : string → option (option json)
}.

(** [_json_from_url(url)] for local locations. *)
Definition _json_from_url (fs : FileSystem) (url : string) : Result json :=
  match resource fs url with
  | None => Raise (IOError url)
  | Some None => Raise (SyntaxError url)
  | Some (Some desc) => Ok desc
  end.

(** [os.path.join(a, b)] *)
Definition path_join (a b : string) : string :=
  match b with
  | String "/" _ => b
  | _ =>
      if String.eqb a "" then b
      else if String.eqb (String.substring (String.length a - 1) 1 a) "/"
           then a +:+ b
           else a +:+ "/" +:+ b
  end.

(** [p.rfind(".")] *)
Fixpoint rfind_dot (p : string) : option nat :=
  match p with
  | EmptyString => None
  | String c p' =>
      match rfind_dot p' with
      | Some i => Some (S i)
      | None => if Ascii.eqb c "." then Some 0 else None
      end
  end.

(** Whether the first [n] characters of [p] are all dots. *)
Fixpoint leading_dots (n : nat) (p : string) : bool :=
  match n, p with
  | S n', String c p' => Ascii.eqb c "." && leading_dots n' p'
  | _, _ => true
  end.

(** [os.path.splitext(p)[1]] for a file name without directory part: the
    text from the last dot on, unless only dots precede that dot. *)
Definition splitext_ext (p : string) : string :=
  match rfind_dot p with
  | Some i =>
      if leading_dots i p then ""
      else String.substring i (String.length p - i) p
  | None => ""
  end.

(** [re.split('_', filename)[0]] *)
Fixpoint split_prefix (filename : string) : string :=
  match filename with
  | EmptyString => EmptyString
  | String c rest =>
      if Ascii.eqb c "_" then EmptyString else String c (split_prefix rest)
  end.

(** The body of the inner loop of [read_model_metadata_bundle]: one file
    name of one visited directory. *)
Definition load_object_file (fs : FileSystem) (dirname : string)
    (model : json) (filename : string) : Result json :=
  if negb (String.eqb (splitext_ext filename) ".json") then Ok model
  else
    let prefix := split_prefix filename in
    let obj_path := path_join dirname filename in
    if String.eqb prefix "dim" || String.eqb prefix "dimension" then
      desc <- _json_from_url fs obj_path;
      name <- match getitem desc "name" with
              | Raise (KeyError _) =>
                  Raise (ModelError (DimensionFileHasNoNameKey obj_path))
              | r => r
              end;
      dimensions <- getitem model "dimensions";
      found <- py_in name dimensions;
      if found
      then
        (* the message is built as
             "Dimension '%s' defined multiple times " % "(in '%s')"
               % (name, obj_path)
           and the second [%] is given two values for one conversion *)
        Raise TypeError
      else
        dimensions' <- append dimensions desc;
        setitem model "dimensions" dimensions'
    else if String.eqb prefix "cube" then
      desc <- _json_from_url fs obj_path;
      name <- match getitem desc "name" with
              | Raise (KeyError _) =>
                  Raise (ModelError (CubeFileHasNoNameKey obj_path))
              | r => r
              end;
      cubes <- getitem model "cubes";
      found <- py_in name cubes;
      if found
      then Raise (ModelError (CubeDefinedMultipleTimes name obj_path))
      else
        cubes' <- append cubes desc;
        setitem model "cubes" cubes'
    else Ok model.

Definition read_model_metadata_bundle (fs : FileSystem) (path : string)
  : Result json :=
  if negb (isdir fs path) then Raise ArgumentError
  else
    let info_path := path_join path "model.json" in
    if negb (exists_ fs info_path)
    then Raise (ModelError (MainModelInfoDoesNotExist info_path))
    else
      model <- _json_from_url fs info_path;
      has_dimensions <- py_in (JStr "dimensions") model;
      model <- (if has_dimensions then Ok model
                else setitem model "dimensions" (JList []));
      has_cubes <- py_in (JStr "cubes") model;
      model <- (if has_cubes then Ok model
                else setitem model "cubes" (JList []));
      foldM (λ model '(dirname, _, filenames),
             foldM (load_object_file fs dirname) filenames model)
            (walk fs path) model.

End Bundle.

(** ** Model providers *)

Module Provider.

(** The attributes of a [ModelProvider] that its metadata methods read.
    [options] is the object stored under the model's ["options"] key when
    the model has one; [cubes_metadata] and [dimensions_metadata] hold the
    very objects of the model's ["cubes"] and ["dimensions"] lists. *)
Record ModelProvider : Type := {
  metadata : dict;
  dimensions_metadata : gmap pykey dict;
  cubes_metadata : gmap pykey dict;
  options : dict
}.

(** [_merge_metadata(metadata, other)].  The ["mappings"] object popped from
    [metadata] is updated in place; the value returned is what the method
    returns. *)
Definition _merge_metadata (metadata other : json) : Result dict :=
  metadata <- as_dict metadata;
  other <- as_dict other;
  let '(cubes_m, metadata) := dpop metadata "cubes" (JList []) in
  let '(cubes_o, other) := dpop other "cubes" (JList []) in
  cubes <- add cubes_m cubes_o;
  let metadata :=
    if truthy cubes then <["cubes" := cubes]> metadata else metadata in
  let '(dims_m, metadata) := dpop metadata "dimensions" (JList []) in
  let '(dims_o, other) := dpop other "dimensions" (JList []) in
  dims <- add dims_m dims_o;
  let metadata :=
    if truthy dims then <["dimensions" := dims]> metadata else metadata in
  let '(joins_m, metadata) := dpop metadata "joins" (JList []) in
  let '(joins_o, other) := dpop other "joins" (JList []) in
  joins <- add joins_m joins_o;
  let metadata :=
    if truthy joins then <["joins" := joins]> metadata else metadata in
  let '(mappings, metadata) := dpop metadata "mappings" (JDict ∅) in
  let '(mappings_o, other) := dpop other "mappings" (JDict ∅) in
  mappings <- update mappings mappings_o;
  let metadata :=
    if truthy (JDict mappings)
    then <["mappings" := JDict mappings]> metadata else metadata in
  Ok (other ∪ metadata).

(** [d[o["name"]] = o], the body of the two indexing loops of [__init__]. *)
Definition index_by_name (d : gmap pykey dict) (o : json)
  : Result (gmap pykey dict) :=
  name <- getitem o "name";
  k <- hash_key name;
  match o with
  | JDict fields => Ok (<[k := fields]> d)
  | _ => Raise TypeError
  end.

(** [ModelProvider.__init__(self, metadata)], with the value of
    [self.default_metadata()] as [defaults] (the base class returns the
    empty dictionary).  [self.options] is the model's ["options"] object, so
    the update with the browser options shows in [self.metadata] too. *)
Definition __init__ (defaults metadata : json) : Result ModelProvider :=
  md <- _merge_metadata defaults metadata;
  dims <- iter (dget md "dimensions" (JList []));
  dimensions_metadata <- foldM index_by_name dims ∅;
  cubes <- iter (dget md "cubes" (JList []));
  cubes_metadata <- foldM index_by_name cubes ∅;
  options <- update (dget md "options" (JDict ∅))
                    (dget md "browser_options" (JDict ∅));
  let md :=
    if bool_decide (is_Some (md !! "options"))
    then <["options" := JDict options]> md else md in
  Ok {| metadata := md;
        dimensions_metadata := dimensions_metadata;
        cubes_metadata := cubes_metadata;
        options := options |}.

(** [cube_options(self, cube_name)] *)
Definition cube_options (self : ModelProvider) (cube_name : string)
  : Result dict :=
  let options := options self in
  match cubes_metadata self !! KStr cube_name with
  | Some cube =>
      options <- update (JDict options) (dget cube "options" (JDict ∅));
      options <- update (JDict options)
                        (dget cube "browser_options" (JDict ∅));
      Ok options
  | None => Ok options
  end.


(** Methods that may update the provider: the outcome and the provider as
    the call leaves it, also when the call raises. *)
Definition M (A : Type) : Type := ModelProvider → Result A * ModelProvider.

Definition mbind_M {A B : Type} (m : M A) (f : A → M B) : M B :=
  λ self,
    match m self with
    | (Ok a, self') => f a self'
    | (Raise e, self') => (Raise e, self')
    end.

(** A step that reads the provider and leaves it as it is. *)
Definition reading {A : Type} (f : ModelProvider → Result A) : M A :=
  λ self, (f self, self).

Declare Scope provider_scope.
Delimit Scope provider_scope with P.
Notation "x <- m ; k" := (mbind_M m (λ x, k))
  (at level 20, m at level 100, k at level 200, only parsing)
  : provider_scope.

(** [metadata = dict(self.cubes_metadata[name])], or [NoSuchCubeError] *)
Definition lookup_cube (name : string) : M dict :=
  reading (λ self,
    match cubes_metadata self !! KStr name with
    | Some cube => Ok cube
    | None => Raise (NoSuchCubeError name)
    end).

(** "merge datastore from model if datastore not present" *)
Definition merge_datastore (md : dict) : M dict :=
  reading (λ self,
    if negb (truthy (dget md "datastore" JNull))
    then Ok (<["datastore" := dget (metadata self) "datastore" JNull]> md)
    else Ok md).

(** "merge browser_options".  [browser_options] is the object the model
    holds under that key, or a fresh dictionary when the model has none;
    the update acts on that object. *)
Definition merge_browser_options (md : dict) : M dict :=
  λ self,
    let cube_options := dget md "browser_options" JNull in
    if truthy cube_options then
      match metadata self !! "browser_options" with
      | Some browser_options =>
          match update browser_options cube_options with
          | Ok updated =>
              (Ok (<["browser_options" := JDict updated]> md),
               {| metadata :=
                    <["browser_options" := JDict updated]> (metadata self);
                  dimensions_metadata := dimensions_metadata self;
                  cubes_metadata := cubes_metadata self;
                  options := options self |})
          | Raise e => (Raise e, self)
          end
      | None =>
          (updated <- update (JDict ∅) cube_options;
           Ok (<["browser_options" := JDict updated]> md), self)
      end
    else
      (Ok (<["browser_options" :=
              dget (metadata self) "browser_options" (JDict ∅)]> md), self).

(** "Merge model and cube mappings" *)
Definition merge_mappings (md : dict) : M dict :=
  reading (λ self,
    let model_mappings := dget (metadata self) "mappings" JNull in
    let '(cube_mappings, md) := dpop md "mappings" (JDict ∅) in
    mappings <- (if truthy model_mappings
                 then updated <- update model_mappings cube_mappings;
                      Ok (JDict updated)
                 else Ok cube_mappings);
    Ok (<["mappings" := mappings]> md)).

(** The body of the loop over the model-level joins: one more entry of
    [model_join_map]. *)
Definition index_model_join (model_join_map : gmap pykey dict) (join : json)
  : Result (gmap pykey dict) :=
  jname <- match getitem join "name" with
           | Raise (KeyError _) => Raise (ModelError MissingJoinNameKey)
           | r => r
           end;
  k <- hash_key jname;
  if bool_decide (is_Some (model_join_map !! k))
  then Raise (ModelError (DuplicateJoinName jname))
  else
    match join with
    | JDict fields => Ok (<[k := fields]> model_join_map)
    | _ => Raise TypeError
    end.

(** The body of the loop over the cube's joins.  The loop assigns the join's
    name to the variable [name], which held the cube name so far; the state
    of the loop is [merged_joins] together with that variable. *)
Definition merge_cube_join (model_join_map : gmap pykey dict)
    (st : list json * json) (join : json) : Result (list json * json) :=
  let '(merged_joins, _) := st in
  name <- get join "name" JNull;
  model_join <- (if truthy name
                 then k <- hash_key name;
                      Ok (default ∅ (model_join_map !! k))
                 else Ok ∅);
  model_join <- update (JDict model_join) join;
  Ok ((merged_joins ++ [JDict model_join])%list, name).

(** The body of the loop "Validate joins", [name] being the variable of that
    name as the merge left it. *)
Definition validate_join (name : json) (_ : unit) (join : json)
  : Result unit :=
  has_master <- py_in (JStr "master") join;
  if negb has_master
  then join_name <- get join "name" JNull;
       Raise (ModelError (NoMasterInJoin name join_name))
  else
    has_detail <- py_in (JStr "detail") join;
    if negb has_detail
    then join_name <- get join "name" JNull;
         Raise (ModelError (NoDetailInJoin name join_name))
    else Ok tt.

(** "Merge model and cube joins" and "Validate joins", as a function of the
    two join lists: the value stored under ["joins"]. *)
Definition resolve_joins (name : string) (model_joins cube_joins : json)
  : Result json :=
  '(merged_joins, name) <-
    (if truthy cube_joins && truthy model_joins
     then
       joins <- iter model_joins;
       model_join_map <- foldM index_model_join joins ∅;
       joins <- iter cube_joins;
       '(merged_joins, name) <-
         foldM (merge_cube_join model_join_map) joins ([], JStr name);
       Ok (JList merged_joins, name)
     else Ok (cube_joins, JStr name));
  joins <- iter merged_joins;
  _ <- foldM (validate_join name) joins tt;
  Ok merged_joins.

Definition merge_joins (name : string) (md : dict) : M dict :=
  reading (λ self,
    let model_joins := dget (metadata self) "joins" (JList []) in
    let '(cube_joins, md) := dpop md "joins" (JList []) in
    merged_joins <- resolve_joins name model_joins cube_joins;
    Ok (<["joins" := merged_joins]> md)).

(** [cube_metadata(self, name)] *)
Definition cube_metadata (name : string) : M dict :=
  (md <- lookup_cube name;
   md <- merge_datastore md;
   md <- merge_browser_options md;
   md <- merge_mappings md;
   merge_joins name md)%P.

(** [public_dimensions(self)]: the model's ["public_dimensions"] when it has
    the key, the names of its dimensions otherwise. *)
Definition public_dimensions (self : ModelProvider) : Result json :=
  match metadata self !! "public_dimensions" with
  | Some names => Ok names
  | None =>
      dimensions <- iter (dget (metadata self) "dimensions" (JList []));
      names <- mapM (λ dim, getitem dim "name") dimensions;
      Ok (JList names)
  end.

(** The entry of one cube in [StaticModelProvider.list_cubes]. *)
Definition cube_info (cube : json) : Result json :=
  name <- getitem cube "name";
  label <- get cube "label" name;
  category <- get cube "category" JNull;
  category <- (if truthy category then Ok category
               else info <- get cube "info" (JDict ∅);
                    get info "category" JNull);
  info <- get cube "info" (JDict ∅);
  Ok (JDict (<["name" := name]>
             (<["label" := label]>
              (<["category" := category]>
               (<["info" := info]> ∅))))).

(** [StaticModelProvider.list_cubes(self)] *)
Definition list_cubes (self : ModelProvider) : Result json :=
  cubes <- iter (dget (metadata self) "cubes" (JList []));
  infos <- mapM cube_info cubes;
  Ok (JList infos).

(** [StaticModelProvider]: [cube] and [dimension] hand the metadata to the
    object constructors of the model module, which this module imports. *)
Section StaticModelProvider.
Context {Cube Dimension Templates : Type}.
Variable create_cube : dict → Result Cube.
Variable create_dimension : dict → Templates → string → Result Dimension.

(** [StaticModelProvider.cube(self, name)] *)
Definition cube (name : string) : M Cube :=
  (metadata <- cube_metadata name;
   reading (λ _, create_cube metadata))%P.

(** [StaticModelProvider.dimension(self, name, templates=templates)] *)
Definition dimension (self : ModelProvider) (name : string)
    (templates : Templates) : Result Dimension :=
  metadata <- match dimensions_metadata self !! KStr name with
              | Some dim => Ok dim
              | None => Raise (NoSuchDimensionError name)
              end;
  create_dimension metadata templates name.
End StaticModelProvider.

End Provider.

(** ** Metadata validator *)

Module Validator.

(** The three schemas the validator loads from the package data. *)
Inductive schema : Type := model_schema | cube_schema | dimension_schema.

(** An error reported by the schema validation library: the path to the
    offending item (keys and list positions) and a message. *)
Inductive path_item : Type :=
  | PKey (k : string)
  | PIndex (i : Z).

Record schema_error : Type := {
  error_path : list path_item;
  error_message : string
}.

(** [ValidationError(severity, scope, object, property, message)] *)
Record ValidationError : Type := {
  severity : string;
  scope : string;
  object : json;
  property : option string;
  message : string
}.

(** [str(item)] *)
Definition str (item : path_item) : string :=
  match item with
  | PKey k => k
  | PIndex i => pretty i
  end.

(** [".".join(path)] *)
Fixpoint join_dots (path : list string) : string :=
  match path with
  | [] => ""
  | [x] => x
  | x :: rest => x +:+ "." +:+ join_dots rest
  end.

(** [isinstance(x, basestring)] and [isinstance(x, list)] *)
Definition is_basestring (x : json) : bool :=
  match x with JStr _ => true | _ => false end.

Definition is_list (x : json) : bool :=
  match x with JList _ => true | _ => false end.

(** The text of a string value. *)
Definition text (x : json) : string :=
  match x with JStr s => s | _ => "" end.

(** The advisory issue for a dimension given by its name only. *)
Definition not_described (dim : json) : ValidationError :=
  {| severity := "default"; scope := "model"; object := JNull;
     property := Some "dimensions";
     message := "Dimension '" +:+ text dim +:+
                "' is not described, creating flat " +:+
                "single-attribute dimension" |}.

Module ModelMetadataValidator.
Section Methods.
(** [jsonschema.Draft4Validator(schema).iter_errors(metadata)] *)
Variable iter_errors : schema → json → list schema_error.

(** The document under validation, [self.metadata]. *)
Variable metadata : json.

Definition _collect_errors (scope : string) (obj : json)
    (validator : schema) (metadata : json) : list ValidationError :=
  (λ error,
     let ref := match error_path error with
                | [] => None
                | path => Some (join_dots (str <$> path))
                end in
     {| severity := "error"; scope := scope; object := obj;
        property := ref; message := error_message error |})
  <$> iter_errors validator metadata.

Definition validate_model : Result (list ValidationError) :=
  let errors := _collect_errors "model" JNull model_schema metadata in
  dims <- get metadata "dimensions" JNull;
  if truthy dims && is_list dims then
    dims <- iter dims;
    Ok (foldl (λ errors dim,
               if is_basestring dim
               then (errors ++ [not_described dim])%list
               else errors) errors dims)
  else Ok errors.

Definition validate_cube (cube : json) : Result (list ValidationError) :=
  name <- get cube "name" JNull;
  Ok (_collect_errors "cube" name cube_schema cube).

Definition validate_dimension (dim : json)
  : Result (list ValidationError) :=
  name <- get dim "name" JNull;
  let errors := _collect_errors "dimension" name dimension_schema dim in
  has_default <- py_in (JStr "default_hierarchy_name") dim;
  let errors :=
    if negb has_default
    then (errors ++
          [ {| severity := "default"; scope := "dimension";
               object := name; property := None;
               message := "No default hierarchy name specified, " +:+
                          "using first one" |} ])%list
    else errors in
  has_levels <- py_in (JStr "levels") dim;
  has_attributes <- py_in (JStr "attributes") dim;
  if negb has_levels && negb has_attributes
  then Ok (errors ++
           [ {| severity := "default"; scope := "dimension";
                object := name; property := None;
                message := "Neither levels nor attributes specified, " +:+
                           "creating flat dimension without details" |} ])%list
  else if has_levels && has_attributes
  then Ok (errors ++
           [ {| severity := "error"; scope := "dimension";
                object := name; property := None;
                message := "Both levels and attributes specified" |} ])%list
  else Ok errors.

(** [errors += check(x)] for each [x] of [metadata[key]], when the
    document has that key. *)
Definition validate_each (key : string)
    (check : json → Result (list ValidationError))
    (errors : list ValidationError) : Result (list ValidationError) :=
  present <- py_in (JStr key) metadata;
  if present then
    items <- getitem metadata key;
    items <- iter items;
    foldM (λ errors x, found <- check x; Ok (errors ++ found)%list)
          items errors
  else Ok errors.

Definition validate : Result (list ValidationError) :=
  errors <- validate_model;
  errors <- validate_each "cubes" validate_cube errors;
  validate_each "dimensions" validate_dimension errors.
End Methods.
End ModelMetadataValidator.

(** [validate_model(metadata)], the module-level entry point *)
Definition validate_model
    (iter_errors : schema → json → list schema_error) (metadata : json)
  : Result (list ValidationError) :=
  ModelMetadataValidator.validate iter_errors metadata.

End Validator.

(** ** The resolved join, in the words of the specification *)

Module Spec.

(** The name of a join, when it has one and it is a string. *)
Definition join_name (join : dict) : option string :=
  match join !! "name" with
  | Some (JStr n) => Some n
  | _ => None
  end.

(** The model-level join filed under the name [n]. *)
Definition model_join_named (model_joins : list dict) (n : string)
  : option dict :=
  List.find (λ join, bool_decide (join_name join = Some n)) model_joins.

(** "Start from a copy of the model join and overwrite with the cube join's
    fields": a field of the cube join wins, a field only the model join has
    is kept. *)
Definition overwritten (model_join cube_join : dict) : dict :=
  merge (λ c m, match c with Some v => Some v | None => m end)
        cube_join model_join.

(** The resolved join as the specification words it: every cube join whose name
    matches a model join is the model join overwritten; any other cube join
    passes through. *)
Definition resolved_join_as_claimed (model_joins : list dict)
    (cube_join : dict) : dict :=
  match join_name cube_join with
  | Some n =>
      match model_join_named model_joins n with
      | Some model_join => overwritten model_join cube_join
      | None => cube_join
      end
  | None => cube_join
  end.

(** The resolved join of the code: as above for a cube join with a
    non-empty name; a cube join whose name is empty counts as unnamed. *)
Definition resolved_join (model_joins : list dict) (cube_join : dict)
  : dict :=
  match join_name cube_join with
  | Some n =>
      if String.eqb n "" then cube_join
      else
        match model_join_named model_joins n with
        | Some model_join => overwritten model_join cube_join
        | None => cube_join
        end
  | None => cube_join
  end.

(** A model-level join is named when it has a string under ["name"]; a
    cube join may go without name, and a name it has is a string. *)
Definition named (join : dict) : bool :=
  bool_decide (is_Some (join_name join)).

Definition name_is_string_if_any (join : dict) : bool :=
  match join !! "name" with
  | None | Some (JStr _) => true
  | Some _ => false
  end.

(** A join carries both ["master"] and ["detail"]. *)
Definition complete (join : dict) : bool :=
  bool_decide (is_Some (join !! "master")) &&
  bool_decide (is_Some (join !! "detail")).

(** The value under [k] is a JSON object, or [d] has no key [k]. *)
Definition dict_or_absent (d : dict) (k : string) : bool :=
  match d !! k with
  | None | Some (JDict _) => true
  | Some _ => false
  end.

(** The value under [k] is a JSON list, or [d] has no key [k]. *)
Definition list_or_absent (d : dict) (k : string) : bool :=
  match d !! k with
  | None | Some (JList _) => true
  | Some _ => false
  end.

(** The model and the cube hold objects under ["browser_options"] and
    ["mappings"], where they have these keys. *)
Definition well_typed (model cube : dict) : bool :=
  dict_or_absent model "browser_options" &&
  dict_or_absent cube "browser_options" &&
  dict_or_absent model "mappings" &&
  dict_or_absent cube "mappings".

(** The list under [k], empty when [d] has no key [k]. *)
Definition list_of (d : dict) (k : string) : list json :=
  match d !! k with
  | Some (JList l) => l
  | _ => []
  end.

(** The object under [k], empty when [d] has no key [k]. *)
Definition dict_of (d : dict) (k : string) : dict :=
  match d !! k with
  | Some (JDict m) => m
  | _ => ∅
  end.

(** "Resolved datastore = cube's own value, else the model's value": the
    cube's metadata with the datastore settled. *)
Definition with_datastore (model cube : dict) : dict :=
  if truthy (dget cube "datastore" JNull) then cube
  else <["datastore" := dget model "datastore" JNull]> cube.

(** The metadata a well-typed cube resolves to, given its resolved joins. *)
Definition resolved (model cube : dict) (merged_joins : json) : dict :=
  <["joins" := merged_joins]>
    (delete "joins"
       (<["mappings" :=
            JDict (dict_of cube "mappings" ∪ dict_of model "mappings")]>
          (delete "mappings"
             (<["browser_options" :=
                  JDict (dict_of cube "browser_options" ∪
                         dict_of model "browser_options")]>
                (with_datastore model cube))))).

(** [if v: m[k] = v] *)
Definition put_nonempty (k : string) (v : json) (m : dict) : dict :=
  if truthy v then <[k := v]> m else m.

(** Metadata whose cube, dimension and join lists are lists and whose
    mappings are an object, where it has them. *)
Definition mergeable (d : dict) : bool :=
  list_or_absent d "cubes" && list_or_absent d "dimensions" &&
  list_or_absent d "joins" && dict_or_absent d "mappings".

(** The key an object is filed under by its ["name"], when it has a
    hashable one. *)
Definition key_of (o : json) : option pykey :=
  match getitem o "name" with
  | Ok name =>
      match hash_key name with
      | Ok k => Some k
      | Raise _ => None
      end
  | Raise _ => None
  end.

(** The last entry of a list that is filed under [k]. *)
Fixpoint last_named (l : list json) (k : pykey) : option json :=
  match l with
  | [] => None
  | o :: l' =>
      match last_named l' k with
      | Some o' => Some o'
      | None => if bool_decide (key_of o = Some k) then Some o else None
      end
  end.

(** The top-level keys that [_merge_metadata] combines rather than
    overwrites. *)
Definition combined_keys : list string :=
  ["cubes"; "dimensions"; "joins"; "mappings"].

(** A file name the bundle reader loads for one of the [prefixes]: the
    extension is [.json] and the text before the first underscore is one of
    the prefixes. *)
Definition is_fragment (prefixes : list string) (filename : string) : bool :=
  String.eqb (Bundle.splitext_ext filename) ".json" &&
  existsb (String.eqb (Bundle.split_prefix filename)) prefixes.

(** The object a file of a directory holds, when it holds one. *)
Definition fragment (fs : Bundle.FileSystem) (dirname filename : string)
  : option dict :=
  match Bundle.resource fs (Bundle.path_join dirname filename) with
  | Some (Some (JDict desc)) => Some desc
  | _ => None
  end.

(** Every dimension and cube file of the directories visited holds an
    object with a string under ["name"]. *)
Definition named_fragments (fs : Bundle.FileSystem)
    (visited : list (string * list string * list string)) : bool :=
  forallb (λ '(dirname, _, filenames),
           forallb (λ filename,
                    negb (is_fragment ["dim"; "dimension"; "cube"] filename)
                    || from_option named false
                         (fragment fs dirname filename))
                   filenames)
          visited.

(** The objects of the files loaded for [prefixes], directory by directory
    and file by file in the order of the walk. *)
Definition fragments (fs : Bundle.FileSystem) (prefixes : list string)
    (visited : list (string * list string * list string)) : list dict :=
  flat_map (λ '(dirname, _, filenames),
            omap (fragment fs dirname)
                 (List.filter (is_fragment prefixes) filenames))
           visited.

End Spec.

(** ** Model documents used as concrete inputs *)

Module Scenarios.
Import Provider Bundle Validator.

(** A JSON object given by its members. *)
Definition obj (members : list (string * json)) : json :=
  JDict (list_to_map members).

Definition fields (members : list (string * json)) : dict :=
  list_to_map members.

(** A model with browser options and two cubes, the first with browser
    options of its own. *)
Definition model_AB : json :=
  obj [("browser_options", obj [("a", JNum 1)]);
       ("cubes", JList [obj [("name", JStr "A");
                             ("browser_options", obj [("b", JNum 2)])];
                        obj [("name", JStr "B")]])].

(** A bundle directory [/m] with a main file, two dimension files that both
    declare the dimension "time" and two cube files that both declare the
    cube "sales". *)
Definition bundle_files : list (string * json) :=
  [("/m/model.json", obj [("name", JStr "m")]);
   ("/m/dim_a.json", obj [("name", JStr "time")]);
   ("/m/dim_b.json", obj [("name", JStr "time")]);
   ("/m/cube_x.json", obj [("name", JStr "sales")]);
   ("/m/cube_y.json", obj [("name", JStr "sales")])].

Definition bundle_fs : FileSystem :=
  {| isdir := λ p, String.eqb p "/m";
     exists_ := λ p,
       String.eqb p "/m" ||
       bool_decide (is_Some ((list_to_map bundle_files : dict) !! p));
     walk := λ p,
       if String.eqb p "/m"
       then [("/m", [], ["model.json"; "dim_a.json"; "dim_b.json";
                         "cube_x.json"; "cube_y.json"])]
       else [];
     resource := λ p, Some <$> ((list_to_map bundle_files : dict) !! p) |}.

(** A model with a bare dimension name. *)
Definition model_bare_dimension : json :=
  obj [("dimensions", JList [JStr "time"])].

(** The join scenario of the specification: the model-level join "j1" and a
    cube that overrides its detail. *)
Definition model_j1 : json :=
  obj [("joins", JList [obj [("name", JStr "j1"); ("master", JStr "a.id");
                             ("detail", JStr "b.aid")]]);
       ("cubes", JList [obj [("name", JStr "sales");
                             ("joins", JList [obj [("name", JStr "j1");
                                                   ("detail", JStr "b.aid2")]])]])].

(** A model-level join and a cube join that share the empty name. *)
Definition model_empty_name : json :=
  obj [("joins", JList [obj [("name", JStr ""); ("master", JStr "a.id");
                             ("detail", JStr "b.aid");
                             ("alias", JStr "x")]]);
       ("cubes", JList [obj [("name", JStr "sales");
                             ("joins", JList [obj [("name", JStr "");
                                                   ("master", JStr "m.id");
                                                   ("detail", JStr "d.mid")]])]])].

(** A model-level join without detail, which the cube "sales" uses as it
    is. *)
Definition model_no_detail : json :=
  obj [("joins", JList [obj [("name", JStr "j1"); ("master", JStr "a.id")]]);
       ("cubes", JList [obj [("name", JStr "sales");
                             ("joins", JList [obj [("name", JStr "j1")]])]])].

(** A model with options and one cube. *)
Definition model_options : json :=
  obj [("options", obj [("x", JNum 1)]);
       ("cubes", JList [obj [("name", JStr "sales")]]);
       ("dimensions", JList [obj [("name", JStr "time")]])].

(** Model-level joins where a repeated name comes before a join without
    name, and the other way round. *)
Definition join_a : json :=
  obj [("name", JStr "a"); ("master", JStr "f.id"); ("detail", JStr "d.id")].

Definition join_unnamed : json :=
  obj [("master", JStr "f.x"); ("detail", JStr "d.x")].

Definition model_dup_then_unnamed : json :=
  obj [("joins", JList [join_a; join_a; join_unnamed]);
       ("cubes", JList [obj [("name", JStr "sales");
                             ("joins", JList [join_a])]])].

Definition model_unnamed_then_dup : json :=
  obj [("joins", JList [join_unnamed; join_a; join_a]);
       ("cubes", JList [obj [("name", JStr "sales");
                             ("joins", JList [join_a])]])].

(** Model-level joins with one defect: a join without name after a named
    one, and the same join twice. *)
Definition model_nameless_join : json :=
  obj [("joins", JList [join_a; join_unnamed]);
       ("cubes", JList [obj [("name", JStr "sales");
                             ("joins", JList [join_a])]])].

Definition model_repeated_join : json :=
  obj [("joins", JList [join_a; join_a]);
       ("cubes", JList [obj [("name", JStr "sales");
                             ("joins", JList [join_a])]])].

(** The nameless model-level join of the specification's scenario, with a
    cube that has no joins of its own, and a datastore on the model. *)
Definition model_unnamed_join : json :=
  obj [("datastore", JStr "warehouse");
       ("joins", JList [obj [("master", JStr "a"); ("detail", JStr "b")]]);
       ("cubes", JList [obj [("name", JStr "sales");
                             ("datastore", JStr "")]])].

(** Provider defaults and user metadata for the provider-default merge. *)
Definition defaults_D : json :=
  obj [("name", JStr "default"); ("label", JStr "Defaults");
       ("cubes", JList [obj [("name", JStr "base")]]);
       ("joins", JList [join_a]);
       ("mappings", obj [("k", JStr "d.k"); ("only_d", JStr "d.o")])].

Definition user_U : json :=
  obj [("name", JStr "user");
       ("cubes", JList [obj [("name", JStr "base")]]);
       ("dimensions", JList [obj [("name", JStr "time")]]);
       ("mappings", obj [("k", JStr "u.k")])].

(** A model that lists the cube "sales" twice. *)
Definition model_two_sales : json :=
  obj [("cubes", JList [obj [("name", JStr "sales");
                             ("label", JStr "first")];
                        obj [("name", JStr "sales");
                             ("label", JStr "second")]])].

(** A model with mappings and browser options, and a cube with a mapping
    of its own. *)
Definition model_with_mappings : json :=
  obj [("mappings", obj [("date", JStr "dm.date")]);
       ("browser_options", obj [("limit", JNum 10)]);
       ("cubes", JList [obj [("name", JStr "sales");
                             ("mappings", obj [("amount", JStr "ft.amt")])]])].

(** A model without joins whose cube has a complete join and a join
    without master. *)
Definition model_cube_join_no_master : json :=
  obj [("cubes", JList [obj [("name", JStr "sales");
                             ("joins", JList [join_a;
                                              obj [("name", JStr "j2");
                                                   ("detail", JStr "d.id")]])]])].

(** Options on the four levels: the model's options and browser options, the
    cube's options and browser options. *)
Definition model_option_levels : json :=
  obj [("options", obj [("a", JStr "model"); ("b", JStr "model");
                        ("c", JStr "model"); ("d", JStr "model")]);
       ("browser_options", obj [("a", JStr "model browser");
                                ("b", JStr "model browser");
                                ("c", JStr "model browser")]);
       ("cubes", JList [obj [("name", JStr "sales");
                             ("options", obj [("a", JStr "cube");
                                              ("b", JStr "cube")]);
                             ("browser_options",
                              obj [("a", JStr "cube browser")])]])].

(** A model whose dimension list names "time" twice by a bare string,
    around a dimension object. *)
Definition model_mixed_dimensions : json :=
  obj [("dimensions", JList [JStr "time"; obj [("name", JStr "date")];
                             JStr "time"])].

(** A dimension with both levels and attributes, and a model that holds it
    beside a cube. *)
Definition dimension_both : json :=
  obj [("name", JStr "date"); ("levels", JList [JStr "year"]);
       ("attributes", JList [JStr "year"])].

Definition model_dimension_both : json :=
  obj [("cubes", JList [obj [("name", JStr "sales")]]);
       ("dimensions", JList [dimension_both])].

(** A bundle directory [/n] with a sub-directory: beside the main file, a
    cube file and a dimension file, the walk meets a file [dim.json] without
    underscore and a text file; the main file lists a dimension of its
    own. *)
Definition nested_bundle_files : list (string * json) :=
  [("/n/model.json", obj [("name", JStr "n");
                          ("dimensions", JList [obj [("name", JStr "date")]])]);
   ("/n/dim.json", obj [("name", JStr "ignored")]);
   ("/n/cube_sales.json", obj [("name", JStr "sales")]);
   ("/n/sub/dimension_time.json", obj [("name", JStr "time")])].

Definition nested_bundle_fs : FileSystem :=
  {| isdir := λ p, String.eqb p "/n" || String.eqb p "/n/sub";
     exists_ := λ p,
       String.eqb p "/n" || String.eqb p "/n/sub" ||
       bool_decide (is_Some ((list_to_map nested_bundle_files : dict) !! p));
     walk := λ p,
       if String.eqb p "/n"
       then [("/n", ["sub"], ["model.json"; "dim.json"; "readme.txt";
                              "cube_sales.json"]);
             ("/n/sub", [], ["dimension_time.json"])]
       else [];
     resource := λ p,
       Some <$> ((list_to_map nested_bundle_files : dict) !! p) |}.

(** A model under assembly that lists the dimension "time" and the cube
    "sales" by bare strings, and a directory [/c] with a file for each. *)
Definition model_bare_names : dict :=
  fields [("dimensions", JList [JStr "time"]);
          ("cubes", JList [JStr "sales"])].

Definition clash_files : list (string * json) :=
  [("/c/dim_time.json", obj [("name", JStr "time")]);
   ("/c/cube_sales.json", obj [("name", JStr "sales")])].

Definition clash_fs : FileSystem :=
  {| isdir := λ p, String.eqb p "/c";
     exists_ := λ p,
       String.eqb p "/c" ||
       bool_decide (is_Some ((list_to_map clash_files : dict) !! p));
     walk := λ p,
       if String.eqb p "/c"
       then [("/c", [], ["dim_time.json"; "cube_sales.json"])]
       else [];
     resource := λ p, Some <$> ((list_to_map clash_files : dict) !! p) |}.

(** A schema validator that reports nothing. *)
Definition no_schema_errors : schema → json → list schema_error :=
  λ _ _, [].

(** The provider built from a model document; the provider of the empty
    model when the constructor raises. *)
Definition provider (model : json) : ModelProvider :=
  match __init__ (JDict ∅) model with
  | Ok p => p
  | Raise _ =>
      {| metadata := ∅; dimensions_metadata := ∅; cubes_metadata := ∅;
         options := ∅ |}
  end.

End Scenarios.

(** * Properties *)

Import Provider Bundle Validator Spec Scenarios.

(** ** Loops and the join index *)

Lemma foldM_cons {A B} (f : B → A → Result B) x l b :
  foldM f (x :: l) b = rbind (f b x) (λ b', foldM f l b').
Proof. reflexivity. Qed.

Lemma rbind_Ok {A B} (a : A) (f : A → Result B) : rbind (Ok a) f = f a.
Proof. reflexivity. Qed.

(** A result read at one key: the call returned, and its value holds the
    key. *)
Lemma Ok_lookup (r : Result dict) (k : string) (v : json) :
  match r with Ok m => m !! k | Raise _ => None end = Some v →
  ∃ md, r = Ok md ∧ md !! k = Some v.
Proof. destruct r as [md|e]; [eauto|done]. Qed.

Lemma overwritten_union (mj cj : dict) : overwritten mj cj = cj ∪ mj.
Proof.
  apply map_eq; intros k. unfold overwritten.
  rewrite lookup_merge, lookup_union.
  by destruct (cj !! k), (mj !! k).
Qed.

Lemma overwritten_lookup (mj cj : dict) k :
  overwritten mj cj !! k =
  match cj !! k with Some v => Some v | None => mj !! k end.
Proof. rewrite overwritten_union, lookup_union. by destruct (cj !! k), (mj !! k). Qed.

Lemma join_name_Some (j : dict) n :
  join_name j = Some n ↔ j !! "name" = Some (JStr n).
Proof.
  unfold join_name. destruct (j !! "name") as [[]|]; naive_solver.
Qed.

Lemma model_join_named_None mjs n :
  n ∉ omap join_name mjs → model_join_named mjs n = None.
Proof.
  unfold model_join_named. induction mjs as [|j mjs IH]; [done|].
  simpl. intros Hn. destruct (join_name j) as [m|] eqn:Hj.
  - rewrite not_elem_of_cons in Hn. destruct Hn as [Hne Hn].
    rewrite bool_decide_eq_false_2 by congruence. auto.
  - rewrite bool_decide_eq_false_2 by congruence. auto.
Qed.

Lemma model_join_named_cons j mjs n :
  model_join_named (j :: mjs) n =
  if bool_decide (join_name j = Some n) then Some j
  else model_join_named mjs n.
Proof. reflexivity. Qed.

(** The index built from uniquely named model-level joins. *)
Lemma foldM_index_model_join mjs (acc : gmap pykey dict) :
  forallb named mjs = true →
  NoDup (omap join_name mjs) →
  (∀ n, n ∈ omap join_name mjs → acc !! KStr n = None) →
  ∃ m, foldM index_model_join (JDict <$> mjs) acc = Ok m ∧
       ∀ k, m !! k =
            match k with
            | KStr n =>
                match model_join_named mjs n with
                | Some j => Some j
                | None => acc !! k
                end
            | _ => acc !! k
            end.
Proof.
  revert acc. induction mjs as [|j mjs IH]; intros acc Hnamed Hdup Hfree.
  { exists acc. split; [done|]. by intros []. }
  simpl in Hnamed. apply andb_true_iff in Hnamed as [Hj Hnamed].
  apply bool_decide_eq_true in Hj as [n Hj].
  simpl in Hdup, Hfree. rewrite Hj in Hdup, Hfree. simpl in Hdup, Hfree.
  apply NoDup_cons in Hdup as [Hn Hdup].
  pose proof Hj as Hname. apply join_name_Some in Hname.
  destruct (IH (<[KStr n := j]> acc) Hnamed Hdup) as (m & Hm & Hlook).
  { intros n' Hn'. rewrite lookup_insert_ne by (intros [= ->]; done).
    apply Hfree. by right. }
  exists m. split.
  - rewrite fmap_cons, foldM_cons. unfold index_model_join at 1.
    simpl. rewrite Hname. simpl.
    rewrite (Hfree n) by left. rewrite bool_decide_eq_false_2 by (by intros []).
    exact Hm.
  - intros k. rewrite Hlook. destruct k as [|z|n'].
    + by rewrite lookup_insert_ne.
    + by rewrite lookup_insert_ne.
    + rewrite model_join_named_cons, Hj.
      destruct (decide (n = n')) as [->|Hne].
      * rewrite bool_decide_eq_true_2 by done.
        rewrite (model_join_named_None mjs n') by done.
        by rewrite lookup_insert_eq.
      * rewrite bool_decide_eq_false_2 by congruence.
        rewrite lookup_insert_ne by congruence. done.
Qed.

Lemma merge_cube_join_step (m : gmap pykey dict) mjs cj acc nm :
  (∀ n, m !! KStr n = model_join_named mjs n) →
  name_is_string_if_any cj = true →
  ∃ nm', merge_cube_join m (acc, nm) (JDict cj) =
         Ok ((acc ++ [JDict (resolved_join mjs cj)])%list, nm').
Proof.
  intros Hm. unfold merge_cube_join, resolved_join, join_name,
    name_is_string_if_any.
  simpl. destruct (cj !! "name") as [[| | |s| |]|]; try done; simpl; intros _.
  - destruct (String.eqb_spec s "") as [->|Hs]; simpl.
    + rewrite (right_id_L ∅ (∪)). eauto.
    + rewrite Hm. destruct (model_join_named mjs s) as [mj|]; simpl.
      * rewrite overwritten_union. eauto.
      * rewrite (right_id_L ∅ (∪)). eauto.
  - rewrite (right_id_L ∅ (∪)). eauto.
Qed.

Lemma foldM_merge_cube_join (m : gmap pykey dict) mjs cjs acc nm :
  (∀ n, m !! KStr n = model_join_named mjs n) →
  forallb name_is_string_if_any cjs = true →
  ∃ nm', foldM (merge_cube_join m) (JDict <$> cjs) (acc, nm) =
         Ok ((acc ++ (JDict <$> (resolved_join mjs <$> cjs)))%list, nm').
Proof.
  intros Hm. revert acc nm. induction cjs as [|cj cjs IH]; intros acc nm Hcjs.
  { exists nm. simpl. by rewrite app_nil_r. }
  simpl in Hcjs. apply andb_true_iff in Hcjs as [Hcj Hcjs].
  destruct (merge_cube_join_step m mjs cj acc nm Hm Hcj) as [nm1 Hstep].
  destruct (IH (acc ++ [JDict (resolved_join mjs cj)])%list nm1 Hcjs)
    as [nm' Hrest].
  exists nm'. rewrite fmap_cons, foldM_cons, Hstep, rbind_Ok, Hrest.
  by rewrite !fmap_cons, <- app_assoc.
Qed.

Lemma validate_join_complete nm (j : dict) :
  complete j = true → validate_join nm tt (JDict j) = Ok tt.
Proof.
  unfold complete, validate_join. intros [Hm Hd]%andb_true_iff.
  simpl. by rewrite Hm, Hd.
Qed.

Lemma foldM_validate_join nm (js : list dict) :
  forallb complete js = true →
  foldM (validate_join nm) (JDict <$> js) tt = Ok tt.
Proof.
  induction js as [|j js IH]; [done|].
  simpl forallb. intros [Hj Hjs]%andb_true_iff.
  rewrite fmap_cons, foldM_cons, validate_join_complete by done. auto.
Qed.

Lemma resolved_join_no_model_joins (cjs : list dict) :
  resolved_join [] <$> cjs = cjs.
Proof.
  induction cjs as [|cj cjs IH]; [done|]. rewrite fmap_cons, IH. f_equal.
  unfold resolved_join. destruct (join_name cj); [|done].
  by destruct (String.eqb _ _).
Qed.

Lemma truthy_list (l : list json) : truthy (JList l) = bool_decide (l ≠ []).
Proof. by destruct l. Qed.

Lemma resolve_joins_spec name (mjs cjs : list dict) :
  forallb named mjs = true →
  NoDup (omap join_name mjs) →
  forallb name_is_string_if_any cjs = true →
  forallb complete (resolved_join mjs <$> cjs) = true →
  resolve_joins name (JList (JDict <$> mjs)) (JList (JDict <$> cjs)) =
  Ok (JList (JDict <$> (resolved_join mjs <$> cjs))).
Proof.
  intros Hnamed Hdup Hcjs Hcomplete. unfold resolve_joins.
  destruct (truthy (JList (JDict <$> cjs)) && truthy (JList (JDict <$> mjs)))
    eqn:Hboth.
  - destruct (foldM_index_model_join mjs ∅ Hnamed Hdup) as (m & Hm & Hlook);
      [done|].
    destruct (foldM_merge_cube_join m mjs cjs [] (JStr name)) as [nm Hmerge];
      [|done|].
    { intros n. rewrite Hlook.
      by destruct (model_join_named mjs n). }
    simpl. rewrite Hm. simpl. rewrite Hmerge. simpl.
    by rewrite foldM_validate_join.
  - assert (resolved_join mjs <$> cjs = cjs) as Heq.
    { destruct cjs as [|cj cjs]; [done|]. destruct mjs as [|mj mjs].
      - apply resolved_join_no_model_joins.
      - done. }
    rewrite Heq in *. simpl. by rewrite foldM_validate_join.
Qed.

(** ** The steps of cube resolution *)

Lemma truthy_dict (d : dict) : truthy (JDict d) = bool_decide (d ≠ ∅).
Proof.
  unfold truthy. destruct (decide (d = ∅)) as [->|Hne].
  - rewrite map_size_empty. by rewrite bool_decide_eq_false_2 by (by intros []).
  - rewrite bool_decide_eq_true_2 by done.
    apply negb_true_iff, Nat.eqb_neq. by rewrite map_size_empty_iff.
Qed.

Lemma merge_datastore_eq md self :
  merge_datastore md self = (Ok (with_datastore (metadata self) md), self).
Proof.
  unfold merge_datastore, reading, with_datastore.
  by destruct (truthy _).
Qed.

Lemma merge_browser_options_Ok md self md' self' :
  merge_browser_options md self = (Ok md', self') →
  (∃ bo, md' = <["browser_options" := bo]> md) ∧
  (∀ k, k ≠ "browser_options" → metadata self' !! k = metadata self !! k).
Proof.
  unfold merge_browser_options.
  destruct (truthy _).
  - destruct (metadata self !! "browser_options") as [bo|].
    + destruct (update bo _) as [u|e]; [|done].
      intros [= <- <-]. split; [eauto|].
      intros k Hk. simpl. by rewrite lookup_insert_ne.
    + destruct (update (JDict ∅) _) as [u|e]; [|done].
      simpl. intros [= <- <-]. eauto.
  - intros [= <- <-]. eauto.
Qed.

Lemma merge_mappings_Ok md self md' self' :
  merge_mappings md self = (Ok md', self') →
  self' = self ∧ ∃ mp, md' = <["mappings" := mp]> (delete "mappings" md).
Proof.
  unfold merge_mappings, reading, dpop.
  destruct (truthy _).
  - destruct (update _ _) as [u|e]; [|done]. simpl. intros [= <- <-]. eauto.
  - simpl. intros [= <- <-]. eauto.
Qed.

Lemma cube_metadata_Ok name self md :
  (cube_metadata name self).1 = Ok md →
  ∃ cube bo mp merged,
    cubes_metadata self !! KStr name = Some cube ∧
    resolve_joins name (dget (metadata self) "joins" (JList []))
                  (dget cube "joins" (JList [])) = Ok merged ∧
    md = <["joins" := merged]>
           (delete "joins"
              (<["mappings" := mp]>
                 (delete "mappings"
                    (<["browser_options" := bo]> (with_datastore (metadata self) cube))))).
Proof.
  unfold cube_metadata, mbind_M, lookup_cube. unfold reading at 1.
  destruct (cubes_metadata self !! KStr name) as [cube|] eqn:Hcube; [|done].
  rewrite merge_datastore_eq.
  destruct (merge_browser_options _ self) as [[md1|e] s1] eqn:Hbo; [|done].
  apply merge_browser_options_Ok in Hbo as [[bo ->] Hkeys].
  destruct (merge_mappings _ s1) as [[md2|e] s2] eqn:Hmp; [|done].
  apply merge_mappings_Ok in Hmp as [-> [mp ->]].
  unfold merge_joins, reading, dpop. simpl.
  destruct (resolve_joins _ _ _) as [merged|e] eqn:Hj; [|done].
  simpl. intros [= <-]. exists cube, bo, mp, merged. split_and!; [done| |done].
  rewrite <- Hj. f_equal.
  - unfold dget. by rewrite Hkeys.
  - unfold dget, with_datastore. destruct (truthy _); by simplify_map_eq.
Qed.

Lemma dict_or_absent_dict_of (d : dict) k :
  dict_or_absent d k = true →
  d !! k = None ∧ dict_of d k = ∅ ∨ d !! k = Some (JDict (dict_of d k)).
Proof.
  unfold dict_or_absent, dict_of. destruct (d !! k) as [[]|]; naive_solver.
Qed.

Lemma merge_browser_options_well_typed md self :
  dict_or_absent (metadata self) "browser_options" = true →
  dict_or_absent md "browser_options" = true →
  (merge_browser_options md self).1 =
  Ok (<["browser_options" :=
         JDict (dict_of md "browser_options" ∪
                dict_of (metadata self) "browser_options")]> md).
Proof.
  intros Hm Hc. unfold merge_browser_options, dget.
  apply dict_or_absent_dict_of in Hm as [[Hm ->]|Hm];
    apply dict_or_absent_dict_of in Hc as [[Hc ->]|Hc];
    rewrite Hm, Hc; cbn -[truthy].
  - by rewrite (left_id_L ∅ (∪)).
  - rewrite truthy_dict. case_bool_decide as Hne; simpl.
    + done.
    + by rewrite Hne.
  - by rewrite (left_id_L ∅ (∪)).
  - rewrite truthy_dict. case_bool_decide as Hne; simpl.
    + done.
    + rewrite Hne. by rewrite (left_id_L ∅ (∪)).
Qed.

Lemma merge_mappings_well_typed md self :
  dict_or_absent (metadata self) "mappings" = true →
  dict_or_absent md "mappings" = true →
  merge_mappings md self =
  (Ok (<["mappings" :=
          JDict (dict_of md "mappings" ∪ dict_of (metadata self) "mappings")]>
         (delete "mappings" md)), self).
Proof.
  intros Hm Hc. unfold merge_mappings, reading, dpop, dget.
  apply dict_or_absent_dict_of in Hm as [[Hm ->]|Hm];
    apply dict_or_absent_dict_of in Hc as [[Hc ->]|Hc];
    rewrite Hm, Hc; cbn -[truthy].
  - by rewrite (left_id_L ∅ (∪)).
  - by rewrite (right_id_L ∅ (∪)).
  - rewrite truthy_dict. case_bool_decide as Hne; simpl.
    + done.
    + by rewrite Hne.
  - rewrite truthy_dict. case_bool_decide as Hne; simpl.
    + done.
    + rewrite Hne. by rewrite (right_id_L ∅ (∪)).
Qed.

Lemma with_datastore_lookup_ne model cube k :
  k ≠ "datastore" → with_datastore model cube !! k = cube !! k.
Proof.
  intros Hk. unfold with_datastore. destruct (truthy _); [done|].
  by rewrite lookup_insert_ne.
Qed.

Lemma cube_metadata_well_typed name self cube :
  cubes_metadata self !! KStr name = Some cube →
  well_typed (metadata self) cube = true →
  (cube_metadata name self).1 =
  (merged_joins <- resolve_joins name (dget (metadata self) "joins" (JList []))
                                 (dget cube "joins" (JList []));
   Ok (resolved (metadata self) cube merged_joins)).
Proof.
  intros Hcube Hwt. unfold well_typed in Hwt.
  apply andb_true_iff in Hwt as [Hwt Hcm].
  apply andb_true_iff in Hwt as [Hwt Hmm].
  apply andb_true_iff in Hwt as [Hmb Hcb].
  unfold cube_metadata, mbind_M, lookup_cube. unfold reading at 1.
  rewrite Hcube, merge_datastore_eq.
  pose proof (merge_browser_options_well_typed
                (with_datastore (metadata self) cube) self Hmb) as Hbo.
  destruct (merge_browser_options _ self) as [[md1|e] s1] eqn:Hstep.
  2: { simpl in Hbo. unfold dict_or_absent in Hbo.
       rewrite with_datastore_lookup_ne in Hbo by done. by specialize (Hbo Hcb). }
  pose proof Hstep as Hkeys. apply merge_browser_options_Ok in Hkeys as [_ Hkeys].
  simpl in Hbo. unfold dict_or_absent, dict_of in Hbo.
  rewrite with_datastore_lookup_ne in Hbo by done.
  specialize (Hbo Hcb). injection Hbo as ->.
  rewrite merge_mappings_well_typed.
  2: { unfold dict_or_absent. by rewrite Hkeys. }
  2: { unfold dict_or_absent. rewrite lookup_insert_ne by done.
       by rewrite with_datastore_lookup_ne. }
  unfold merge_joins, reading, dpop, dget. simpl.
  rewrite Hkeys by done.
  rewrite lookup_insert_ne by done. rewrite lookup_delete_ne by done.
  rewrite lookup_insert_ne by done. rewrite with_datastore_lookup_ne by done.
  unfold resolved, dict_of.
  rewrite lookup_insert_ne by done. rewrite with_datastore_lookup_ne by done.
  rewrite Hkeys by done. done.
Qed.

(** The provider after a cube resolution: only the browser options step
    writes to it. *)
Lemma cube_metadata_state name self :
  (cube_metadata name self).2 =
  match cubes_metadata self !! KStr name with
  | Some cube =>
      (merge_browser_options
         (if negb (truthy (dget cube "datastore" JNull))
          then <["datastore" := dget (metadata self) "datastore" JNull]> cube
          else cube) self).2
  | None => self
  end.
Proof.
  unfold cube_metadata, lookup_cube, merge_datastore, merge_mappings,
    merge_joins, mbind_M, reading.
  destruct (cubes_metadata self !! KStr name) as [cube|]; [|done].
  destruct (negb _).
  all: destruct (merge_browser_options _ self) as [[md|e] s]; [|done].
  all: destruct (dpop md _ _) as [cm md'].
  all: destruct (rbind _ _) as [md2|e]; [|done].
  all: destruct (dpop md2 _ _) as [cj md3].
  all: by destruct (rbind _ _).
Qed.

(** Resolving a cube that has browser options of its own stores the merged
    options in the model, whatever the outcome of the call. *)
Lemma cube_metadata_writes_browser_options self name cube (cb mb : dict) :
  cubes_metadata self !! KStr name = Some cube →
  cube !! "browser_options" = Some (JDict cb) →
  cb ≠ ∅ →
  metadata self !! "browser_options" = Some (JDict mb) →
  metadata (cube_metadata name self).2 !! "browser_options" =
    Some (JDict (cb ∪ mb)).
Proof.
  intros Hcube Hcb Hne Hmb. rewrite cube_metadata_state, Hcube.
  unfold merge_browser_options, dget.
  assert ((if negb (truthy (default JNull (cube !! "datastore")))
           then <["datastore" :=
                    default JNull (metadata self !! "datastore")]> cube
           else cube) !! "browser_options" = Some (JDict cb)) as ->.
  { destruct (negb _); [by rewrite lookup_insert_ne|done]. }
  cbn [default from_option id].
  rewrite truthy_dict, bool_decide_eq_true_2 by done.
  rewrite Hmb. cbn [update as_dict rbind snd metadata].
  by rewrite lookup_insert_eq.
Qed.

(** C1 (refuted on the code).  Cube resolution does not leave the stored
    model as it was: in the model [model_AB], resolving cube "A" stores the
    options of "A" in the model's own ["browser_options"], and cube "B"
    resolved afterwards carries them, whereas "B" resolved first does
    not. *)
Theorem resolving_A_changes_model_and_B :
  let p := provider model_AB in
  let pA := (cube_metadata "A" p).2 in
  __init__ (JDict ∅) model_AB = Ok p ∧
  metadata p !! "browser_options" = Some (obj [("a", JNum 1)]) ∧
  metadata pA !! "browser_options" =
    Some (obj [("a", JNum 1); ("b", JNum 2)]) ∧
  (∃ md, (cube_metadata "B" p).1 = Ok md ∧
         md !! "browser_options" = Some (obj [("a", JNum 1)])) ∧
  (∃ md, (cube_metadata "B" pA).1 = Ok md ∧
         md !! "browser_options" =
           Some (obj [("a", JNum 1); ("b", JNum 2)])).
Proof.
  cbv zeta. split_and!; try (vm_compute; reflexivity).
  all: apply Ok_lookup; vm_compute; reflexivity.
Qed.

(** ** Resolved joins *)

Lemma model_join_named_unique (mjs : list dict) mj n :
  NoDup (omap join_name mjs) → mj ∈ mjs → join_name mj = Some n →
  model_join_named mjs n = Some mj.
Proof.
  induction mjs as [|j mjs IH]; intros Hdup Hin Hn; [by apply elem_of_nil in Hin|].
  rewrite model_join_named_cons.
  apply elem_of_cons in Hin as [<-|Hin].
  - by rewrite bool_decide_eq_true_2.
  - simpl in Hdup. destruct (join_name j) as [m|] eqn:Hj; simpl in Hdup.
    + apply NoDup_cons in Hdup as [Hm Hdup].
      rewrite bool_decide_eq_false_2; [by apply IH|].
      intros [= ->]. apply Hm. apply list_elem_of_omap. eauto.
    + rewrite bool_decide_eq_false_2 by done. by apply IH.
Qed.

(** A cube join with a non-empty name that a model-level join carries is
    that model-level join overwritten field by field. *)
Lemma resolved_join_matched (mjs : list dict) cj mj n :
  NoDup (omap join_name mjs) → mj ∈ mjs →
  join_name mj = Some n → join_name cj = Some n → n ≠ "" →
  resolved_join mjs cj = overwritten mj cj.
Proof.
  intros Hdup Hin Hmj Hcj Hn. unfold resolved_join. rewrite Hcj.
  destruct (String.eqb_spec n "") as [|_]; [done|].
  by rewrite (model_join_named_unique mjs mj n).
Qed.

(** Unnamed and unmatched cube joins pass through. *)
Lemma resolved_join_unmatched (mjs : list dict) cj :
  (∀ n, join_name cj = Some n → n = "" ∨ n ∉ omap join_name mjs) →
  resolved_join mjs cj = cj.
Proof.
  intros Hcj. unfold resolved_join. destruct (join_name cj) as [n|]; [|done].
  destruct (String.eqb_spec n "") as [|Hn]; [done|].
  destruct (Hcj n eq_refl) as [|Hfree]; [done|].
  by rewrite model_join_named_None.
Qed.

(** C4 (as amended).  With uniquely named model-level joins, the resolved
    join list is the cube's join list in the cube's order, where a cube join
    with a non-empty name carried by a model-level join is that model-level
    join overwritten field by field with the cube join (the cube wins, the
    other model-side fields are kept, see [overwritten_lookup] and
    [resolved_join_matched]) and every other cube join, a cube join with an
    empty name included, passes through as it is. *)
Theorem resolved_joins_overwrite_model_joins self name cube
    (model_joins cube_joins : list dict) :
  cubes_metadata self !! KStr name = Some cube →
  well_typed (metadata self) cube = true →
  dget (metadata self) "joins" (JList []) = JList (JDict <$> model_joins) →
  dget cube "joins" (JList []) = JList (JDict <$> cube_joins) →
  forallb named model_joins = true →
  NoDup (omap join_name model_joins) →
  forallb name_is_string_if_any cube_joins = true →
  forallb complete (resolved_join model_joins <$> cube_joins) = true →
  ∃ md, (cube_metadata name self).1 = Ok md ∧
        md !! "joins" =
          Some (JList (JDict <$> (resolved_join model_joins <$> cube_joins))).
Proof.
  intros Hcube Hwt Hmj Hcj Hnamed Hdup Hstr Hcomplete.
  rewrite (cube_metadata_well_typed name self cube Hcube Hwt), Hmj, Hcj.
  rewrite resolve_joins_spec by done.
  eexists. split; [reflexivity|]. unfold resolved. by rewrite lookup_insert_eq.
Qed.

(** The scenario of the specification, from the theorem: model join "j1"
    with master "a.id" and detail "b.aid", cube join "j1" with detail
    "b.aid2". *)
Lemma resolved_joins_scenario_j1 :
  ∃ md, (cube_metadata "sales" (provider model_j1)).1 = Ok md ∧
        md !! "joins" =
          Some (JList [obj [("name", JStr "j1"); ("master", JStr "a.id");
                            ("detail", JStr "b.aid2")]]).
Proof.
  destruct (resolved_joins_overwrite_model_joins
              (provider model_j1) "sales"
              (fields [("name", JStr "sales");
                       ("joins", JList [obj [("name", JStr "j1");
                                             ("detail", JStr "b.aid2")]])])
              [fields [("name", JStr "j1"); ("master", JStr "a.id");
                       ("detail", JStr "b.aid")]]
              [fields [("name", JStr "j1"); ("detail", JStr "b.aid2")]])
    as (md & Hmd & Hjoins); try (vm_compute; reflexivity).
  - vm_compute. apply NoDup_singleton.
  - exists md. split; [exact Hmd|]. rewrite Hjoins. vm_compute. reflexivity.
Defined.

(** C4 as stated fails: the model-level joins are uniquely named, the cube
    join has the name of the model-level join (the empty string), and the
    resolved join is the cube join alone, without the model-side field
    ["alias"]. *)
Lemma empty_name_join_not_merged :
  let p := provider model_empty_name in
  let model_joins :=
    [fields [("name", JStr ""); ("master", JStr "a.id");
             ("detail", JStr "b.aid"); ("alias", JStr "x")]] in
  let cube_joins :=
    [fields [("name", JStr ""); ("master", JStr "m.id");
             ("detail", JStr "d.mid")]] in
  __init__ (JDict ∅) model_empty_name = Ok p ∧
  metadata p !! "joins" = Some (JList (JDict <$> model_joins)) ∧
  NoDup (omap join_name model_joins) ∧
  join_name <$> cube_joins = join_name <$> model_joins ∧
  ∃ md, (cube_metadata "sales" p).1 = Ok md ∧
        md !! "joins" = Some (JList (JDict <$> cube_joins)) ∧
        md !! "joins" ≠
          Some (JList (JDict <$>
                  (resolved_join_as_claimed model_joins <$> cube_joins))).
Proof.
  cbv zeta. split_and!; try (vm_compute; reflexivity).
  - vm_compute. apply NoDup_singleton.
  - edestruct Ok_lookup as (md & Hmd & Hjoins);
      [|exists md; split; [exact Hmd|split; [exact Hjoins|]]].
    + vm_compute. reflexivity.
    + rewrite Hjoins. intros H. vm_compute in H. discriminate H.
Qed.

(** ** The datastore *)

(** C10.  In every resolved metadata the datastore is the cube's own value
    when that value is truthy and the model-level value (or [None]) when the
    cube's value is falsy or missing; and resolution does return a result
    for a well-typed cube whose joins resolve. *)
Theorem resolved_datastore self name cube :
  cubes_metadata self !! KStr name = Some cube →
  (∀ md, (cube_metadata name self).1 = Ok md →
         md !! "datastore" =
           Some (if truthy (dget cube "datastore" JNull)
                 then dget cube "datastore" JNull
                 else dget (metadata self) "datastore" JNull)) ∧
  (well_typed (metadata self) cube = true →
   ∀ merged_joins,
     resolve_joins name (dget (metadata self) "joins" (JList []))
                   (dget cube "joins" (JList [])) = Ok merged_joins →
     ∃ md, (cube_metadata name self).1 = Ok md).
Proof.
  intros Hcube. split.
  - intros md Hmd.
    apply cube_metadata_Ok in Hmd as (cube' & bo & mp & merged & Hc & _ & ->).
    rewrite Hcube in Hc. injection Hc as <-.
    rewrite lookup_insert_ne by done. rewrite lookup_delete_ne by done.
    rewrite lookup_insert_ne by done. rewrite lookup_delete_ne by done.
    rewrite lookup_insert_ne by done.
    unfold with_datastore, dget.
    destruct (cube !! "datastore") as [v|] eqn:Hv; simpl.
    + destruct (truthy v); [done|]. by rewrite lookup_insert_eq.
    + by rewrite lookup_insert_eq.
  - intros Hwt merged Hj.
    rewrite (cube_metadata_well_typed name self cube Hcube Hwt), Hj. eauto.
Qed.

(** A cube with an empty datastore string receives the datastore of the
    model. *)
Lemma resolved_datastore_from_model :
  ∃ md, (cube_metadata "sales" (provider model_unnamed_join)).1 = Ok md ∧
        md !! "datastore" = Some (JStr "warehouse").
Proof.
  destruct (resolved_datastore (provider model_unnamed_join) "sales"
              (fields [("name", JStr "sales"); ("datastore", JStr "")]))
    as [Hvalue Hresolves]; [vm_compute; reflexivity|].
  destruct (Hresolves ltac:(vm_compute; reflexivity) (JList [])
                      ltac:(vm_compute; reflexivity)) as [md Hmd].
  exists md. split; [exact Hmd|]. rewrite (Hvalue md Hmd).
  vm_compute. reflexivity.
Defined.

(** ** Defective model-level joins *)

Lemma foldM_app {A B} (f : B → A → Result B) l1 l2 b :
  foldM f (l1 ++ l2) b = rbind (foldM f l1 b) (foldM f l2).
Proof.
  revert b. induction l1 as [|x l1 IH]; intros b; [done|].
  simpl. destruct (f b x); simpl; auto.
Qed.

Lemma model_join_named_is_Some (mjs : list dict) n :
  n ∈ omap join_name mjs → is_Some (model_join_named mjs n).
Proof.
  induction mjs as [|j mjs IH]; [by intros ?%elem_of_nil|].
  intros Hin. rewrite model_join_named_cons. simpl in Hin.
  destruct (join_name j) as [m|] eqn:Hj; simpl in Hin.
  - apply elem_of_cons in Hin as [->|Hin].
    + by rewrite bool_decide_eq_true_2.
    + case_bool_decide; eauto.
  - rewrite bool_decide_eq_false_2 by done. auto.
Qed.

(** The index of the model-level joins stops at the first defective join:
    after uniquely named joins, a join without ["name"] key gives the
    missing-name error and a join that repeats an earlier name gives the
    duplicate-name error, whatever follows in the list. *)
Lemma resolve_joins_first_defect name
    (before : list dict) (join : dict) (after cube_joins : list json) :
  cube_joins ≠ [] →
  forallb named before = true →
  NoDup (omap join_name before) →
  (join !! "name" = None →
   resolve_joins name (JList ((JDict <$> before) ++ JDict join :: after))
                 (JList cube_joins) =
     Raise (ModelError MissingJoinNameKey)) ∧
  (∀ n, join_name join = Some n → n ∈ omap join_name before →
        resolve_joins name
                      (JList ((JDict <$> before) ++ JDict join :: after))
                      (JList cube_joins) =
          Raise (ModelError (DuplicateJoinName (JStr n)))).
Proof.
  intros Hne Hnamed Hdup.
  destruct (foldM_index_model_join before ∅ Hnamed Hdup) as (m & Hm & Hlook);
    [done|].
  assert (∀ e, index_model_join m (JDict join) = Raise e →
               resolve_joins name
                 (JList ((JDict <$> before) ++ JDict join :: after))
                 (JList cube_joins) = Raise e) as Hraise.
  { intros e He. unfold resolve_joins.
    rewrite !truthy_list, bool_decide_eq_true_2 by done.
    rewrite bool_decide_eq_true_2 by (by destruct before).
    cbn [andb iter rbind]. rewrite foldM_app, Hm, rbind_Ok, foldM_cons, He.
    done. }
  split.
  - intros Hnone. apply Hraise. unfold index_model_join. simpl.
    by rewrite Hnone.
  - intros n Hn Hin. apply Hraise. unfold index_model_join. simpl.
    apply join_name_Some in Hn. rewrite Hn. simpl.
    rewrite bool_decide_eq_true_2; [done|].
    rewrite Hlook. destruct (model_join_named_is_Some before n Hin) as [j ->].
    eauto.
Qed.

(** The first join without ["name"] key in a list of joins whose names are
    strings: the joins before it are named. *)
Lemma first_nameless_join (joins : list dict) :
  forallb name_is_string_if_any joins = true →
  (∃ join, join ∈ joins ∧ join !! "name" = None) →
  ∃ (before : list dict) join after,
    joins = (before ++ join :: after)%list ∧
    forallb named before = true ∧ join !! "name" = None.
Proof.
  induction joins as [|j joins IH]; intros Hstr (join & Hin & Hnone).
  { by apply elem_of_nil in Hin. }
  simpl in Hstr. apply andb_prop in Hstr as [Hj Hstr].
  destruct (j !! "name") as [v|] eqn:Hname.
  - apply elem_of_cons in Hin as [->|Hin]; [congruence|].
    destruct IH as (before & join' & after & -> & Hnamed & Hnone'); [done|eauto|].
    exists (j :: before), join', after. split_and!; [done| |done].
    simpl. rewrite Hnamed, andb_true_r. unfold named, join_name.
    unfold name_is_string_if_any in Hj. rewrite Hname in Hj |- *.
    destruct v; try done; apply bool_decide_eq_true_2; eauto.
  - exists [], j, joins. done.
Qed.

(** The first join that repeats an earlier name in a list of named joins
    with a repeated name: the names before it are pairwise distinct. *)
Lemma first_repeated_join (joins : list dict) :
  forallb named joins = true →
  ¬ NoDup (omap join_name joins) →
  ∃ (before : list dict) join after n,
    joins = (before ++ join :: after)%list ∧
    forallb named before = true ∧
    NoDup (omap join_name before) ∧
    join_name join = Some n ∧ n ∈ omap join_name before.
Proof.
  induction joins as [|j joins IH] using rev_ind; intros Hnamed Hdup.
  { destruct Hdup. apply NoDup_nil_2. }
  rewrite forallb_app in Hnamed. apply andb_prop in Hnamed as [Hjoins Hj].
  destruct (decide (NoDup (omap join_name joins))) as [Hnodup|Hrep].
  - simpl in Hj. rewrite andb_true_r in Hj.
    apply bool_decide_eq_true_1 in Hj as [n Hn].
    exists joins, j, [], n. split_and!; try done.
    destruct (decide (n ∈ omap join_name joins)) as [|Hnotin]; [done|].
    destruct Hdup. rewrite omap_app. simpl. rewrite Hn. simpl.
    apply NoDup_app. split_and!; [done| |apply NoDup_singleton].
    intros x Hx ->%list_elem_of_singleton. done.
  - destruct (IH Hjoins Hrep)
      as (before & join & after & n & -> & Hb & Hnd & Hn & Hin).
    exists before, join, (after ++ [j])%list, n.
    split_and!; try done. by rewrite <- app_assoc.
Qed.

(** C7.  When the model and the cube both have a non-empty join list,
    resolving the cube fails with the missing-name error if some
    model-level join has no ["name"] key (the names of the others being
    pairwise distinct), and fails with the duplicate-name error, for a name
    the model-level joins carry, if every model-level join is named and two
    of them share a name. *)
Theorem defective_model_joins_fail self name cube
    (model_joins : list dict) (cube_joins : list json) :
  cubes_metadata self !! KStr name = Some cube →
  well_typed (metadata self) cube = true →
  dget cube "joins" (JList []) = JList cube_joins →
  cube_joins ≠ [] →
  dget (metadata self) "joins" (JList []) = JList (JDict <$> model_joins) →
  forallb name_is_string_if_any model_joins = true →
  ((∃ join, join ∈ model_joins ∧ join !! "name" = None) →
   NoDup (omap join_name model_joins) →
   (cube_metadata name self).1 = Raise (ModelError MissingJoinNameKey)) ∧
  (forallb named model_joins = true →
   ¬ NoDup (omap join_name model_joins) →
   ∃ n, n ∈ omap join_name model_joins ∧
        (cube_metadata name self).1 =
          Raise (ModelError (DuplicateJoinName (JStr n)))).
Proof.
  intros Hcube Hwt Hcj Hne Hmj Hstr.
  rewrite (cube_metadata_well_typed name self cube Hcube Hwt), Hcj, Hmj.
  split.
  - intros Hnameless Hnodup.
    destruct (first_nameless_join model_joins Hstr Hnameless)
      as (before & join & after & -> & Hnamed & Hnone).
    rewrite omap_app in Hnodup. apply NoDup_app in Hnodup as (Hnodup & _ & _).
    rewrite fmap_app, fmap_cons.
    destruct (resolve_joins_first_defect name before join (JDict <$> after)
                cube_joins Hne Hnamed Hnodup) as [Hmissing _].
    by rewrite (Hmissing Hnone).
  - intros Hnamed Hrep.
    destruct (first_repeated_join model_joins Hnamed Hrep)
      as (before & join & after & n & -> & Hb & Hnodup & Hn & Hin).
    exists n. split.
    { rewrite omap_app. apply elem_of_app. by left. }
    rewrite fmap_app, fmap_cons.
    destruct (resolve_joins_first_defect name before join (JDict <$> after)
                cube_joins Hne Hb Hnodup) as [_ Hrepeated].
    by rewrite (Hrepeated n Hn Hin).
Qed.

(** Both parts at models with one defect each: a join without name after a
    named one, and the same join twice. *)
Lemma defective_model_joins_examples :
  (cube_metadata "sales" (provider model_nameless_join)).1 =
    Raise (ModelError MissingJoinNameKey) ∧
  (cube_metadata "sales" (provider model_repeated_join)).1 =
    Raise (ModelError (DuplicateJoinName (JStr "a"))).
Proof.
  split.
  - apply (defective_model_joins_fail
             (provider model_nameless_join) "sales"
             (fields [("name", JStr "sales"); ("joins", JList [join_a])])
             [fields [("name", JStr "a"); ("master", JStr "f.id");
                      ("detail", JStr "d.id")];
              fields [("master", JStr "f.x"); ("detail", JStr "d.x")]]
             [join_a]);
      try (vm_compute; reflexivity).
    + discriminate.
    + eexists. split; [apply list_elem_of_further, list_elem_of_here|].
      vm_compute. reflexivity.
    + vm_compute. apply NoDup_singleton.
  - destruct (defective_model_joins_fail
                (provider model_repeated_join) "sales"
                (fields [("name", JStr "sales"); ("joins", JList [join_a])])
                [fields [("name", JStr "a"); ("master", JStr "f.id");
                         ("detail", JStr "d.id")];
                 fields [("name", JStr "a"); ("master", JStr "f.id");
                         ("detail", JStr "d.id")]]
                [join_a]
                ltac:(vm_compute; reflexivity) ltac:(vm_compute; reflexivity)
                ltac:(vm_compute; reflexivity) ltac:(discriminate)
                ltac:(vm_compute; reflexivity) ltac:(vm_compute; reflexivity))
      as [_ Hdup].
    destruct Hdup as (n & Hin & Hraise).
    + vm_compute. reflexivity.
    + vm_compute. intros [Hnotin _]%NoDup_cons. apply Hnotin.
      apply list_elem_of_here.
    + rewrite Hraise. vm_compute in Hin.
      apply elem_of_cons in Hin as [->|Hin]; [done|].
      apply elem_of_cons in Hin as [->|Hin]; [done|].
      by apply elem_of_nil in Hin.
Defined.

(** When the model and the cube both have a non-empty join list, the first
    defective model-level join in list order decides the error of the
    resolution: after uniquely named joins, a join without ["name"] key makes
    it fail with the missing-name error, and a join that repeats one of the
    earlier names makes it fail with the duplicate-name error, also when a
    later join has the other defect. *)
Theorem first_defective_model_join_decides self name cube
    (before : list dict) (join : dict) (after cube_joins : list json) :
  cubes_metadata self !! KStr name = Some cube →
  well_typed (metadata self) cube = true →
  dget cube "joins" (JList []) = JList cube_joins →
  cube_joins ≠ [] →
  dget (metadata self) "joins" (JList []) =
    JList ((JDict <$> before) ++ JDict join :: after) →
  forallb named before = true →
  NoDup (omap join_name before) →
  (join !! "name" = None →
   (cube_metadata name self).1 = Raise (ModelError MissingJoinNameKey)) ∧
  (∀ n, join_name join = Some n → n ∈ omap join_name before →
        (cube_metadata name self).1 =
          Raise (ModelError (DuplicateJoinName (JStr n)))).
Proof.
  intros Hcube Hwt Hcj Hne Hmj Hnamed Hdup.
  rewrite (cube_metadata_well_typed name self cube Hcube Hwt), Hcj, Hmj.
  destruct (resolve_joins_first_defect name before join after cube_joins
              Hne Hnamed Hdup) as [Hmissing Hrepeated].
  split.
  - intros Hnone. by rewrite (Hmissing Hnone).
  - intros n Hn Hin. by rewrite (Hrepeated n Hn Hin).
Qed.

(** Models with both defects: the nameless join first gives the missing-name
    error, the repeated name first gives the duplicate-name error. *)
Lemma first_defective_model_join_examples :
  (cube_metadata "sales" (provider model_unnamed_then_dup)).1 =
    Raise (ModelError MissingJoinNameKey) ∧
  (cube_metadata "sales" (provider model_dup_then_unnamed)).1 =
    Raise (ModelError (DuplicateJoinName (JStr "a"))).
Proof.
  split.
  - apply (first_defective_model_join_decides
             (provider model_unnamed_then_dup) "sales"
             (fields [("name", JStr "sales"); ("joins", JList [join_a])])
             [] (fields [("master", JStr "f.x"); ("detail", JStr "d.x")])
             [join_a; join_a] [join_a]);
      try (vm_compute; reflexivity).
    + discriminate.
    + apply NoDup_nil_2.
  - apply (first_defective_model_join_decides
             (provider model_dup_then_unnamed) "sales"
             (fields [("name", JStr "sales"); ("joins", JList [join_a])])
             [fields [("name", JStr "a"); ("master", JStr "f.id");
                      ("detail", JStr "d.id")]]
             (fields [("name", JStr "a"); ("master", JStr "f.id");
                      ("detail", JStr "d.id")])
             [join_unnamed] [join_a]);
      try (vm_compute; reflexivity).
    + discriminate.
    + vm_compute. apply NoDup_singleton.
    + vm_compute. apply list_elem_of_here.
Defined.

(** ** Validation of the resolved joins *)

Lemma py_in_Raise x c e : py_in x c = Raise e → e = TypeError.
Proof.
  unfold py_in. destruct c as [| | |t|l|d]; try congruence.
  - destruct x; congruence.
  - destruct x; congruence.
Qed.

Lemma get_Raise o k dflt e : get o k dflt = Raise e → e = AttributeError.
Proof. unfold get. destruct o; congruence. Qed.

(** What [validate_join] lets through, and what it raises. *)
Lemma validate_join_Ok nm j :
  validate_join nm tt j = Ok tt ↔
  py_in (JStr "master") j = Ok true ∧ py_in (JStr "detail") j = Ok true.
Proof.
  unfold validate_join. split.
  - destruct (py_in (JStr "master") j) as [[]|e]; simpl;
      [|by destruct (get j "name" JNull)|done].
    destruct (py_in (JStr "detail") j) as [[]|e]; simpl;
      [done|by destruct (get j "name" JNull)|done].
  - by intros [-> ->].
Qed.

Lemma validate_join_Raise nm j e :
  validate_join nm tt j = Raise e →
  e = TypeError ∨ e = AttributeError ∨
  (∃ jn, e = ModelError (NoMasterInJoin nm jn)) ∨
  (∃ jn, e = ModelError (NoDetailInJoin nm jn)).
Proof.
  unfold validate_join.
  destruct (py_in (JStr "master") j) as [[]|e1] eqn:Hm; simpl.
  - destruct (py_in (JStr "detail") j) as [[]|e2] eqn:Hd; simpl.
    + done.
    + destruct (get j "name" JNull) as [jn|e3] eqn:Hg; simpl.
      * intros [= <-]. eauto 6.
      * intros [= <-]. apply get_Raise in Hg. auto.
    + intros [= <-]. apply py_in_Raise in Hd. auto.
  - destruct (get j "name" JNull) as [jn|e3] eqn:Hg; simpl.
    + intros [= <-]. eauto 6.
    + intros [= <-]. apply get_Raise in Hg. auto.
  - intros [= <-]. apply py_in_Raise in Hm. auto.
Qed.

Lemma foldM_validate_join_Ok nm joins u :
  foldM (validate_join nm) joins tt = Ok u →
  Forall (λ j, py_in (JStr "master") j = Ok true ∧
               py_in (JStr "detail") j = Ok true) joins.
Proof.
  induction joins as [|j joins IH]; [constructor|].
  rewrite foldM_cons. destruct (validate_join nm tt j) as [[]|e] eqn:Hj; [|done].
  rewrite rbind_Ok. intros Hrest. constructor; [|auto].
  by apply (validate_join_Ok nm).
Qed.

Lemma foldM_validate_join_Raise nm joins e :
  foldM (validate_join nm) joins tt = Raise e →
  e ≠ ModelError MissingJoinNameKey ∧
  ∀ jname, e ≠ ModelError (DuplicateJoinName jname).
Proof.
  induction joins as [|j joins IH]; [done|].
  rewrite foldM_cons. destruct (validate_join nm tt j) as [[]|e'] eqn:Hj.
  - by rewrite rbind_Ok.
  - intros [= <-]. apply validate_join_Raise in Hj.
    destruct Hj as [->|[->|[[jn ->]|[jn ->]]]]; by split.
Qed.

(** Every join of a resolved cube carries a master and a detail. *)
Lemma resolved_joins_are_complete name self md :
  (cube_metadata name self).1 = Ok md →
  ∃ merged_joins joins,
    md !! "joins" = Some merged_joins ∧ iter merged_joins = Ok joins ∧
    Forall (λ j, py_in (JStr "master") j = Ok true ∧
                 py_in (JStr "detail") j = Ok true) joins.
Proof.
  intros Hmd.
  apply cube_metadata_Ok in Hmd as (cube & bo & mp & merged & _ & Hj & ->).
  exists merged. rewrite lookup_insert_eq.
  unfold resolve_joins in Hj.
  match type of Hj with
  | rbind ?x _ = _ => destruct x as [[merged' nm]|e]; [|done]
  end.
  simpl in Hj.
  destruct (iter merged') as [joins|e] eqn:Hiter; [|done]. simpl in Hj.
  destruct (foldM (validate_join nm) joins tt) as [u|e] eqn:Hv; [|done].
  simpl in Hj. injection Hj as <-.
  exists joins. split_and!; [done..|]. by apply foldM_validate_join_Ok in Hv.
Qed.

(** C5 (refuted on the code).  In [model_no_detail] the resolved join of
    cube "sales" has no detail; the error raised names "j1", the name of the
    cube's last join, where the cube name belongs, and "sales" appears
    nowhere in it. *)
Theorem invalid_join_error_cites_join_name_as_cube :
  let p := provider model_no_detail in
  __init__ (JDict ∅) model_no_detail = Ok p ∧
  (∃ cube, cubes_metadata p !! KStr "sales" = Some cube) ∧
  (cube_metadata "sales" p).1 =
    Raise (ModelError (NoDetailInJoin (JStr "j1") (JStr "j1"))).
Proof.
  cbv zeta. split_and!; [vm_compute; reflexivity| |vm_compute; reflexivity].
  eexists. vm_compute. reflexivity.
Qed.

(** ** A cube without joins of its own *)

(** C8.  When the cube's or the model's join list is empty, resolution
    never raises the missing-name error, a resolved cube carries the cube's
    join list unchanged, and a well-typed cube without joins of its own does
    resolve, whatever the model-level joins are. *)
Theorem cube_without_joins_resolves self name cube :
  cubes_metadata self !! KStr name = Some cube →
  well_typed (metadata self) cube = true →
  truthy (dget cube "joins" (JList [])) &&
    truthy (dget (metadata self) "joins" (JList [])) = false →
  (cube_metadata name self).1 ≠ Raise (ModelError MissingJoinNameKey) ∧
  (∀ md, (cube_metadata name self).1 = Ok md →
         md !! "joins" = Some (dget cube "joins" (JList []))) ∧
  (dget cube "joins" (JList []) = JList [] →
   ∃ md, (cube_metadata name self).1 = Ok md ∧
         md !! "joins" = Some (JList [])).
Proof.
  intros Hcube Hwt Hempty.
  rewrite (cube_metadata_well_typed name self cube Hcube Hwt).
  unfold resolve_joins. rewrite Hempty. cbn [rbind].
  split_and!.
  - destruct (iter _) as [joins|e] eqn:Hiter; simpl.
    + destruct (foldM _ joins tt) as [u|e] eqn:Hv; simpl; [done|].
      apply foldM_validate_join_Raise in Hv as [Hv _]. congruence.
    + destruct (dget cube "joins" (JList [])); simpl in Hiter; congruence.
  - intros md. destruct (iter _) as [joins|e]; simpl; [|done].
    destruct (foldM _ joins tt) as [u|e]; simpl; [|done].
    intros [= <-]. unfold resolved. by rewrite lookup_insert_eq.
  - intros ->. simpl. eexists. split; [reflexivity|].
    unfold resolved. by rewrite lookup_insert_eq.
Qed.

(** The scenario of the specification: a nameless model-level join and a
    cube without joins. *)
Lemma cube_without_joins_scenario :
  ∃ md, (cube_metadata "sales" (provider model_unnamed_join)).1 = Ok md ∧
        md !! "joins" = Some (JList []).
Proof.
  destruct (cube_without_joins_resolves (provider model_unnamed_join) "sales"
              (fields [("name", JStr "sales"); ("datastore", JStr "")]))
    as (_ & _ & Hresolves); try (vm_compute; reflexivity).
  apply Hresolves. vm_compute. reflexivity.
Defined.

(** ** Accessors *)




(** ** The provider-default merge *)

Lemma list_or_absent_list_of (d : dict) k :
  list_or_absent d k = true →
  default (JList []) (d !! k) = JList (list_of d k).
Proof.
  unfold list_or_absent, list_of. by destruct (d !! k) as [[]|].
Qed.

Lemma dict_or_absent_default (d : dict) k :
  dict_or_absent d k = true →
  default (JDict ∅) (d !! k) = JDict (dict_of d k).
Proof.
  unfold dict_or_absent, dict_of. by destruct (d !! k) as [[]|].
Qed.

Lemma lookup_put_nonempty_ne k v (m : dict) k' :
  k ≠ k' → put_nonempty k v m !! k' = m !! k'.
Proof.
  intros Hk. unfold put_nonempty. destruct (truthy v); [|done].
  by rewrite lookup_insert_ne.
Qed.

Lemma list_of_put_nonempty k (l : list json) (m : dict) :
  list_of (put_nonempty k (JList l) (delete k m)) k = l.
Proof.
  unfold list_of, put_nonempty. destruct l as [|x l]; simpl.
  - by rewrite lookup_delete_eq.
  - by rewrite lookup_insert_eq.
Qed.

Lemma dict_of_put_nonempty k (d : dict) (m : dict) :
  dict_of (put_nonempty k (JDict d) (delete k m)) k = d.
Proof.
  unfold dict_of, put_nonempty. rewrite truthy_dict.
  case_bool_decide as Hd.
  - by rewrite lookup_insert_eq.
  - by rewrite lookup_delete_eq.
Qed.

Ltac fold_put_nonempty :=
  repeat match goal with
         | |- context [if truthy ?v then <[?k := ?v]> ?m else ?m] =>
             change (if truthy v then <[k := v]> m else m)
               with (put_nonempty k v m)
         end.

(** The merged metadata, stage by stage. *)
Lemma merge_metadata_stages (D U : dict) :
  mergeable D = true → mergeable U = true →
  _merge_metadata (JDict D) (JDict U) =
  Ok (delete "mappings" (delete "joins" (delete "dimensions"
        (delete "cubes" U))) ∪
      put_nonempty "mappings"
        (JDict (dict_of U "mappings" ∪ dict_of D "mappings"))
        (delete "mappings"
           (put_nonempty "joins"
              (JList (list_of D "joins" ++ list_of U "joins"))
              (delete "joins"
                 (put_nonempty "dimensions"
                    (JList (list_of D "dimensions" ++ list_of U "dimensions"))
                    (delete "dimensions"
                       (put_nonempty "cubes"
                          (JList (list_of D "cubes" ++ list_of U "cubes"))
                          (delete "cubes" D)))))))).
Proof.
  unfold mergeable. intros HD HU.
  repeat match goal with
         | H : _ && _ = true |- _ => apply andb_true_iff in H as [? ?]
         end.
  unfold _merge_metadata, dpop. cbn [as_dict rbind].
  rewrite (list_or_absent_list_of D "cubes"),
    (list_or_absent_list_of U "cubes") by done.
  cbn [add rbind]. fold_put_nonempty.
  rewrite lookup_put_nonempty_ne, !lookup_delete_ne by done.
  rewrite (list_or_absent_list_of D "dimensions"),
    (list_or_absent_list_of U "dimensions") by done.
  cbn [add rbind]. fold_put_nonempty.
  rewrite !lookup_put_nonempty_ne, !lookup_delete_ne by done.
  rewrite !lookup_put_nonempty_ne, !lookup_delete_ne by done.
  rewrite (list_or_absent_list_of D "joins"),
    (list_or_absent_list_of U "joins") by done.
  cbn [add rbind]. fold_put_nonempty.
  repeat (rewrite ?lookup_put_nonempty_ne, ?lookup_delete_ne by done).
  rewrite (dict_or_absent_default D "mappings"),
    (dict_or_absent_default U "mappings") by done.
  cbn [update as_dict rbind]. fold_put_nonempty. reflexivity.
Qed.

Lemma list_of_union_r (m1 m2 m : dict) k :
  m1 !! k = None → m2 !! k = m !! k → list_of (m1 ∪ m2) k = list_of m k.
Proof.
  intros H1 H2. unfold list_of. by rewrite lookup_union_r, H2.
Qed.

Lemma dict_of_union_r (m1 m2 m : dict) k :
  m1 !! k = None → m2 !! k = m !! k → dict_of (m1 ∪ m2) k = dict_of m k.
Proof.
  intros H1 H2. unfold dict_of. by rewrite lookup_union_r, H2.
Qed.

Ltac lookup_stages :=
  repeat (rewrite ?lookup_put_nonempty_ne, ?lookup_delete_ne by done).

(** C9.  For defaults [D] and user metadata [U], the merged metadata has
    the cubes of [D] followed by those of [U] (no duplicate checking), the
    dimensions and the joins likewise, the mappings of [D] updated key by
    key with those of [U], and under every other key the value of [U] when
    [U] has the key and the value of [D] otherwise. *)
Theorem merge_metadata_spec (D U : dict) :
  mergeable D = true → mergeable U = true →
  ∃ M, _merge_metadata (JDict D) (JDict U) = Ok M ∧
       list_of M "cubes" = (list_of D "cubes" ++ list_of U "cubes")%list ∧
       list_of M "dimensions" =
         (list_of D "dimensions" ++ list_of U "dimensions")%list ∧
       list_of M "joins" = (list_of D "joins" ++ list_of U "joins")%list ∧
       dict_of M "mappings" = dict_of U "mappings" ∪ dict_of D "mappings" ∧
       ∀ k, k ∉ combined_keys → M !! k = (U ∪ D) !! k.
Proof.
  intros HD HU. eexists. split; [by apply merge_metadata_stages|].
  split_and!.
  - erewrite list_of_union_r; [apply list_of_put_nonempty| |].
    + rewrite ?lookup_delete_ne by done. apply lookup_delete_eq.
    + by lookup_stages.
  - erewrite list_of_union_r; [apply list_of_put_nonempty| |].
    + rewrite ?lookup_delete_ne by done. apply lookup_delete_eq.
    + by lookup_stages.
  - erewrite list_of_union_r; [apply list_of_put_nonempty| |].
    + rewrite ?lookup_delete_ne by done. apply lookup_delete_eq.
    + by lookup_stages.
  - erewrite dict_of_union_r; [apply dict_of_put_nonempty| |].
    + by rewrite lookup_delete_eq.
    + done.
  - intros k Hk. unfold combined_keys in Hk.
    rewrite !not_elem_of_cons in Hk. destruct Hk as (? & ? & ? & ? & _).
    rewrite !lookup_union. by lookup_stages.
Qed.

(** The merge of [defaults_D] and [user_U]: the cube "base" appears twice,
    the mapping ["k"] and the name are the user's, the label is kept from
    the defaults. *)
Lemma merge_metadata_defaults_then_user :
  ∃ M, _merge_metadata defaults_D user_U = Ok M ∧
       M !! "cubes" =
         Some (JList [obj [("name", JStr "base")];
                      obj [("name", JStr "base")]]) ∧
       M !! "dimensions" = Some (JList [obj [("name", JStr "time")]]) ∧
       M !! "joins" = Some (JList [join_a]) ∧
       M !! "mappings" =
         Some (obj [("k", JStr "u.k"); ("only_d", JStr "d.o")]) ∧
       M !! "name" = Some (JStr "user") ∧
       M !! "label" = Some (JStr "Defaults").
Proof.
  destruct (merge_metadata_spec
              (fields [("name", JStr "default"); ("label", JStr "Defaults");
                       ("cubes", JList [obj [("name", JStr "base")]]);
                       ("joins", JList [join_a]);
                       ("mappings", obj [("k", JStr "d.k");
                                         ("only_d", JStr "d.o")])])
              (fields [("name", JStr "user");
                       ("cubes", JList [obj [("name", JStr "base")]]);
                       ("dimensions", JList [obj [("name", JStr "time")]]);
                       ("mappings", obj [("k", JStr "u.k")])]))
    as (M & HM & _); try (vm_compute; reflexivity).
  change (_merge_metadata defaults_D user_U = Ok M) in HM.
  exists M. split; [exact HM|].
  assert (Hkey : ∀ k v,
             match _merge_metadata defaults_D user_U with
             | Ok m => m !! k
             | Raise _ => None
             end = Some v → M !! k = Some v)
    by (intros k v; rewrite HM; exact id).
  split_and!; apply Hkey; vm_compute; reflexivity.
Defined.

(** ** The bundle reader *)

(** A name that is a string equals no entry that is an object. *)
Lemma name_not_among_objects (name : string) (entries : list dict) :
  py_in (JStr name) (JList (JDict <$> entries)) = Ok false.
Proof.
  unfold py_in. f_equal. induction entries as [|d entries IH]; [done|].
  rewrite fmap_cons. simpl. exact IH.
Qed.

(** A dimension file is appended whatever the names collected so far. *)
Lemma load_object_file_appends_dimension fs dirname filename
    (model desc : dict) (dimensions : list dict) (name : string) :
  splitext_ext filename = ".json" →
  split_prefix filename = "dim" ∨ split_prefix filename = "dimension" →
  resource fs (path_join dirname filename) = Some (Some (JDict desc)) →
  desc !! "name" = Some (JStr name) →
  model !! "dimensions" = Some (JList (JDict <$> dimensions)) →
  load_object_file fs dirname (JDict model) filename =
  Ok (JDict (<["dimensions" := JList (JDict <$> (dimensions ++ [desc])%list)]>
               model)).
Proof.
  intros Hext Hprefix Hres Hname Hdims. unfold load_object_file.
  rewrite Hext. cbn [String.eqb Ascii.eqb Bool.eqb negb].
  assert (String.eqb (split_prefix filename) "dim" ||
          String.eqb (split_prefix filename) "dimension" = true) as ->.
  { destruct Hprefix as [-> | ->]; reflexivity. }
  unfold _json_from_url. rewrite Hres. cbn [rbind getitem].
  rewrite Hname, Hdims. cbn [rbind].
  rewrite name_not_among_objects. cbn [rbind append setitem].
  by rewrite fmap_app.
Qed.

(** A cube file likewise. *)
Lemma load_object_file_appends_cube fs dirname filename
    (model desc : dict) (cubes : list dict) (name : string) :
  splitext_ext filename = ".json" →
  split_prefix filename = "cube" →
  resource fs (path_join dirname filename) = Some (Some (JDict desc)) →
  desc !! "name" = Some (JStr name) →
  model !! "cubes" = Some (JList (JDict <$> cubes)) →
  load_object_file fs dirname (JDict model) filename =
  Ok (JDict (<["cubes" := JList (JDict <$> (cubes ++ [desc])%list)]> model)).
Proof.
  intros Hext Hprefix Hres Hname Hcubes. unfold load_object_file.
  rewrite Hext, Hprefix. cbn [String.eqb Ascii.eqb Bool.eqb negb orb].
  unfold _json_from_url. rewrite Hres. cbn [rbind getitem].
  rewrite Hname, Hcubes. cbn [rbind].
  rewrite name_not_among_objects. cbn [rbind append setitem].
  by rewrite fmap_app.
Qed.

(** C2 (refuted on the code).  The bundle [/m] holds two dimension files
    that both declare "time" and two cube files that both declare "sales";
    the reader raises nothing and returns a model with both dimensions and
    both cubes. *)
Theorem duplicate_fragments_are_assembled :
  read_model_metadata_bundle bundle_fs "/m" =
  Ok (obj [("name", JStr "m");
           ("dimensions", JList [obj [("name", JStr "time")];
                                 obj [("name", JStr "time")]]);
           ("cubes", JList [obj [("name", JStr "sales")];
                            obj [("name", JStr "sales")]])]).
Proof. vm_compute. reflexivity. Qed.

(** ** The validator *)

Lemma foldM_raises_at {A B} (f : B → A → Result B) l x :
  x ∈ l → (∀ b, ∃ e, f b x = Raise e) → ∀ b, ∃ e, foldM f l b = Raise e.
Proof.
  intros Hin Hx. induction l as [|y l IH]; [by apply elem_of_nil in Hin|].
  intros b. rewrite foldM_cons.
  apply elem_of_cons in Hin as [<-|Hin].
  - destruct (Hx b) as [e ->]. eauto.
  - destruct (f b y) as [b'|e]; [|eauto]. rewrite rbind_Ok. by apply IH.
Qed.

Lemma not_described_collected (dims : list json) s errors :
  JStr s ∈ dims →
  not_described (JStr s) ∈
    foldl (λ errors dim,
           if is_basestring dim then (errors ++ [not_described dim])%list
           else errors) errors dims.
Proof.
  revert errors. induction dims as [|d dims IH]; intros errors Hin;
    [by apply elem_of_nil in Hin|].
  assert (∀ errors',
            not_described (JStr s) ∈ errors' →
            not_described (JStr s) ∈
              foldl (λ errors dim,
                     if is_basestring dim
                     then (errors ++ [not_described dim])%list
                     else errors) errors' dims) as Hkeep.
  { clear. induction dims as [|d dims IH]; intros errors' Hin; [done|].
    simpl. apply IH. destruct (is_basestring d); [|done].
    apply elem_of_app. by left. }
  apply elem_of_cons in Hin as [<-|Hin]; simpl.
  - apply Hkeep. apply elem_of_app. right. apply list_elem_of_here.
  - by apply IH.
Qed.

(** C3 (refuted on the code).  For a document whose ["dimensions"] list
    holds a bare string, the model-level check does report the advisory
    issue for that name, but the per-dimension check raises on the string
    and the validation as a whole raises instead of returning its
    findings. *)
Theorem validate_raises_on_bare_dimension
    (iter_errors : schema → json → list schema_error)
    (metadata : dict) (dims : list json) (name : string) :
  metadata !! "dimensions" = Some (JList dims) →
  JStr name ∈ dims →
  (∃ errors,
     ModelMetadataValidator.validate_model iter_errors (JDict metadata) =
       Ok errors ∧
     not_described (JStr name) ∈ errors) ∧
  ModelMetadataValidator.validate_dimension iter_errors (JStr name) =
    Raise AttributeError ∧
  ∃ e, validate_model iter_errors (JDict metadata) = Raise e.
Proof.
  intros Hdims Hin.
  assert (dims ≠ []) as Hne by (by intros ->; apply elem_of_nil in Hin).
  assert (∃ errors,
            ModelMetadataValidator.validate_model iter_errors (JDict metadata)
              = Ok errors ∧ not_described (JStr name) ∈ errors)
    as (errors & Hmodel & Hfound).
  { unfold ModelMetadataValidator.validate_model. cbn [get rbind].
    rewrite Hdims. cbn [default from_option id].
    rewrite truthy_list, bool_decide_eq_true_2 by done.
    cbn [is_list andb iter rbind]. eexists. split; [reflexivity|].
    by apply not_described_collected. }
  split_and!; [eauto|done|].
  unfold validate_model, ModelMetadataValidator.validate.
  rewrite Hmodel, rbind_Ok.
  destruct (ModelMetadataValidator.validate_each (JDict metadata)
              "cubes" _ errors) as [errors'|e]; [|eauto].
  rewrite rbind_Ok. unfold ModelMetadataValidator.validate_each.
  cbn [py_in rbind getitem]. rewrite Hdims.
  rewrite bool_decide_eq_true_2 by eauto. cbn [rbind iter].
  apply (foldM_raises_at _ dims (JStr name)); [done|].
  intros b. exists AttributeError. reflexivity.
Qed.

(** The theorem at the document [{"dimensions": ["time"]}]. *)
Lemma validate_raises_on_model_bare_dimension :
  ModelMetadataValidator.validate_dimension no_schema_errors (JStr "time") =
    Raise AttributeError ∧
  ∃ e, validate_model no_schema_errors model_bare_dimension = Raise e.
Proof.
  destruct (validate_raises_on_bare_dimension no_schema_errors
              (fields [("dimensions", JList [JStr "time"])])
              [JStr "time"] "time")
    as (_ & Hdim & Hraises).
  - vm_compute. reflexivity.
  - apply list_elem_of_here.
  - split; [exact Hdim|exact Hraises].
Defined.

(** ** The provider constructor *)

Lemma rbind_Ok_inv {A B} (m : Result A) (f : A → Result B) b :
  rbind m f = Ok b → ∃ a, m = Ok a ∧ f a = Ok b.
Proof. destruct m as [a|e]; [eauto|done]. Qed.

(** What a successful construction went through. *)
Lemma init_Ok defaults user p :
  __init__ defaults user = Ok p →
  ∃ md dims cubes,
    _merge_metadata defaults user = Ok md ∧
    iter (dget md "dimensions" (JList [])) = Ok dims ∧
    foldM index_by_name dims ∅ = Ok (dimensions_metadata p) ∧
    iter (dget md "cubes" (JList [])) = Ok cubes ∧
    foldM index_by_name cubes ∅ = Ok (cubes_metadata p) ∧
    update (dget md "options" (JDict ∅))
           (dget md "browser_options" (JDict ∅)) = Ok (options p) ∧
    metadata p = (if bool_decide (is_Some (md !! "options"))
                  then <["options" := JDict (options p)]> md else md).
Proof.
  unfold __init__. intros H.
  apply rbind_Ok_inv in H as (md & Hmd & H).
  apply rbind_Ok_inv in H as (dims & Hdims & H).
  apply rbind_Ok_inv in H as (dm & Hdm & H).
  apply rbind_Ok_inv in H as (cubes & Hcubes & H).
  apply rbind_Ok_inv in H as (cm & Hcm & H).
  apply rbind_Ok_inv in H as (opts & Hopts & H).
  injection H as <-. simpl. eauto 12.
Qed.

Lemma init_metadata_lookup defaults user p md k :
  __init__ defaults user = Ok p →
  _merge_metadata defaults user = Ok md →
  k ≠ "options" → metadata p !! k = md !! k.
Proof.
  intros (md' & _ & _ & Hmd & _ & _ & _ & _ & _ & ->)%init_Ok Hmd' Hk.
  rewrite Hmd in Hmd'. injection Hmd' as ->.
  case_bool_decide; [by rewrite lookup_insert_ne|done].
Qed.

Lemma index_by_name_Ok d o d' :
  index_by_name d o = Ok d' →
  ∃ fields k, o = JDict fields ∧ key_of o = Some k ∧ d' = <[k := fields]> d.
Proof.
  unfold index_by_name, key_of.
  destruct (getitem o "name") as [name|e]; [|done]. cbn [rbind].
  destruct (hash_key name) as [k|e]; [|done]. cbn [rbind].
  destruct o; try done. intros [= <-]. eauto.
Qed.

(** The index holds, under each key, the last entry filed under it. *)
Lemma foldM_index_by_name l (acc m : gmap pykey dict) :
  foldM index_by_name l acc = Ok m →
  Forall (λ o, is_Some (key_of o)) l ∧
  ∀ k, JDict <$> m !! k =
       match last_named l k with
       | Some o => Some o
       | None => JDict <$> acc !! k
       end.
Proof.
  revert acc. induction l as [|o l IH]; intros acc.
  { intros [= <-]. split; [constructor|done]. }
  rewrite foldM_cons. intros (acc' & Ho & Hl)%rbind_Ok_inv.
  apply index_by_name_Ok in Ho as (fields & k0 & -> & Hk0 & ->).
  apply IH in Hl as [Hall Hlook]. split.
  - constructor; [by rewrite Hk0|done].
  - intros k. rewrite Hlook. cbn [last_named].
    destruct (last_named l k) as [o'|]; [done|].
    rewrite Hk0. case_bool_decide as Hk.
    + injection Hk as ->. by rewrite lookup_insert_eq.
    + rewrite lookup_insert_ne; [done|congruence].
Qed.

(** A provider that was built looks a cube up under its name and finds the
    last cube of the model's list with that name, and a dimension
    likewise. *)
Theorem init_indexes_last_entry defaults user p :
  __init__ defaults user = Ok p →
  ∃ dims cubes,
    iter (dget (metadata p) "dimensions" (JList [])) = Ok dims ∧
    iter (dget (metadata p) "cubes" (JList [])) = Ok cubes ∧
    (∀ k, JDict <$> dimensions_metadata p !! k = last_named dims k) ∧
    (∀ k, JDict <$> cubes_metadata p !! k = last_named cubes k).
Proof.
  intros Hp. pose proof Hp as Hinv.
  apply init_Ok in Hinv
    as (md & dims & cubes & Hmd & Hdims & Hdm & Hcubes & Hcm & _ & _).
  exists dims, cubes. unfold dget.
  rewrite !(init_metadata_lookup defaults user p md) by done.
  split_and!; [done..| |].
  - intros k. apply foldM_index_by_name in Hdm as [_ ->].
    rewrite lookup_empty. by destruct (last_named dims k).
  - intros k. apply foldM_index_by_name in Hcm as [_ ->].
    rewrite lookup_empty. by destruct (last_named cubes k).
Qed.

Lemma init_indexes_last_entry_example :
  (∃ dims cubes,
     iter (dget (metadata (provider model_two_sales)) "dimensions" (JList []))
       = Ok dims ∧
     iter (dget (metadata (provider model_two_sales)) "cubes" (JList []))
       = Ok cubes ∧
     (∀ k, JDict <$> dimensions_metadata (provider model_two_sales) !! k =
           last_named dims k) ∧
     (∀ k, JDict <$> cubes_metadata (provider model_two_sales) !! k =
           last_named cubes k)) ∧
  cubes_metadata (provider model_two_sales) !! KStr "sales" =
    Some (fields [("name", JStr "sales"); ("label", JStr "second")]).
Proof.
  split.
  - apply (init_indexes_last_entry (JDict ∅) model_two_sales).
    vm_compute. reflexivity.
  - vm_compute. reflexivity.
Defined.

Lemma merge_empty_defaults_dimensions (user md : dict) dims :
  _merge_metadata (JDict ∅) (JDict user) = Ok md →
  user !! "dimensions" = Some (JList dims) → dims ≠ [] →
  md !! "dimensions" = Some (JList dims).
Proof.
  intros Hmd Hdims Hne. unfold _merge_metadata, dpop in Hmd.
  cbn [as_dict rbind] in Hmd.
  apply rbind_Ok_inv in Hmd as (cubes & _ & Hmd).
  rewrite (lookup_delete_ne user) in Hmd by done. rewrite Hdims in Hmd.
  assert ((if truthy cubes
           then <["cubes" := cubes]> (delete "cubes" (∅ : dict))
           else delete "cubes" ∅) !! "dimensions" = None) as Hnone.
  { destruct (truthy cubes); by simplify_map_eq. }
  rewrite Hnone in Hmd. cbn [default from_option id add rbind app] in Hmd.
  rewrite truthy_list, bool_decide_eq_true_2 in Hmd by done.
  apply rbind_Ok_inv in Hmd as (joins & _ & Hmd).
  apply rbind_Ok_inv in Hmd as (mappings & _ & Hmd).
  injection Hmd as <-.
  rewrite lookup_union_r.
  2: { rewrite !lookup_delete_ne by done. apply lookup_delete_eq. }
  destruct (negb _), (truthy joins);
    repeat (rewrite ?lookup_insert_ne, ?lookup_delete_ne by done);
    apply lookup_insert_eq.
Qed.

(** A model that names a dimension by a bare string cannot be given to a
    provider: the constructor raises. *)
Theorem init_raises_on_bare_dimension (user : dict) dims s :
  user !! "dimensions" = Some (JList dims) →
  JStr s ∈ dims →
  ∃ e, __init__ (JDict ∅) (JDict user) = Raise e.
Proof.
  intros Hdims Hin.
  assert (dims ≠ []) as Hne by (by intros ->; apply elem_of_nil in Hin).
  unfold __init__.
  destruct (_merge_metadata (JDict ∅) (JDict user)) as [md|e] eqn:Hmd;
    [|eauto].
  rewrite rbind_Ok. unfold dget.
  rewrite (merge_empty_defaults_dimensions user md dims) by done.
  cbn [default from_option id iter rbind].
  destruct (foldM_raises_at index_by_name dims (JStr s) Hin)
    with (b := (∅ : gmap pykey dict)) as [e ->]; [|eauto].
  intros b. exists TypeError. reflexivity.
Qed.

Lemma init_raises_on_bare_dimension_example :
  ∃ e, __init__ (JDict ∅) model_bare_dimension = Raise e.
Proof.
  apply (init_raises_on_bare_dimension
           (fields [("dimensions", JList [JStr "time"])]) [JStr "time"] "time").
  - vm_compute. reflexivity.
  - apply list_elem_of_here.
Defined.

(** ** Listings *)

Lemma last_named_is_Some l o k :
  o ∈ l → key_of o = Some k → is_Some (last_named l k).
Proof.
  induction l as [|o1 l IH]; [by intros ?%elem_of_nil|].
  intros Hin Hk. cbn [last_named].
  destruct (last_named l k) as [o2|] eqn:Hl; [eauto|].
  apply elem_of_cons in Hin as [<-|Hin].
  - rewrite bool_decide_eq_true_2 by done. eauto.
  - destruct (IH Hin Hk) as [? [=]].
Qed.

Lemma mapM_cons {A B} (f : A → Result B) x l :
  mapM f (x :: l) = rbind (f x) (λ y, rbind (mapM f l) (λ ys, Ok (y :: ys))).
Proof. reflexivity. Qed.

Lemma mapM_Ok_Forall2 {A B} (f : A → Result B) l ys :
  mapM f l = Ok ys → Forall2 (λ x y, f x = Ok y) l ys.
Proof.
  revert ys. induction l as [|x l IH]; intros ys.
  { intros [= <-]. constructor. }
  rewrite mapM_cons. intros (y & Hy & H)%rbind_Ok_inv.
  apply rbind_Ok_inv in H as (zs & Hzs & [= <-]).
  constructor; auto.
Qed.

Lemma Forall2_impl_elem_of {A B} (P Q : A → B → Prop) l ys :
  Forall2 P l ys → (∀ x y, x ∈ l → P x y → Q x y) → Forall2 Q l ys.
Proof.
  induction 1 as [|x y l ys Hxy _ IH]; intros HPQ; constructor.
  - apply HPQ; [apply list_elem_of_here|done].
  - apply IH. intros x' y' Hin. apply HPQ. by right.
Qed.

Lemma mapM_names l :
  Forall (λ o, is_Some (key_of o)) l →
  ∃ names, mapM (λ dim, getitem dim "name") l = Ok names.
Proof.
  induction 1 as [|o l [k Hk] _ [names IH]]; [by exists []|].
  rewrite mapM_cons, IH. unfold key_of in Hk.
  destruct (getitem o "name") as [n|e]; [|done]. eauto.
Qed.

(** A provider that was built always answers [public_dimensions]: with the
    model's own list when it has one, else with one name per dimension, in
    model order, each of which is a key of the dimension index. *)
Theorem public_dimensions_after_init defaults user p :
  __init__ defaults user = Ok p →
  ∃ names,
    public_dimensions p = Ok names ∧
    (∀ v, metadata p !! "public_dimensions" = Some v → names = v) ∧
    (metadata p !! "public_dimensions" = None →
     ∃ dims l,
       iter (dget (metadata p) "dimensions" (JList [])) = Ok dims ∧
       names = JList l ∧
       Forall2 (λ dim n,
                getitem dim "name" = Ok n ∧
                ∃ k, hash_key n = Ok k ∧
                     is_Some (dimensions_metadata p !! k)) dims l).
Proof.
  intros Hp. unfold public_dimensions.
  destruct (metadata p !! "public_dimensions") as [v|] eqn:Hpub.
  { exists v. split_and!; [done|by intros ? [= ->]|done]. }
  pose proof Hp as Hinv.
  apply init_Ok in Hinv
    as (md & dims & cubes & Hmd & Hdims & Hdm & _ & _ & _ & _).
  unfold dget. rewrite (init_metadata_lookup defaults user p md) by done.
  fold (dget md "dimensions" (JList [])). rewrite Hdims, rbind_Ok.
  apply foldM_index_by_name in Hdm as [Hall Hlook].
  destruct (mapM_names dims Hall) as [l Hl]. rewrite Hl, rbind_Ok.
  exists (JList l). split_and!; [done|done|]. intros _.
  exists dims, l. split_and!; [done..|].
  apply mapM_Ok_Forall2 in Hl.
  eapply Forall2_impl_elem_of; [exact Hl|].
  intros dim n Hin Hn. split; [done|].
  rewrite Forall_forall in Hall. destruct (Hall dim Hin) as [k Hk].
  exists k. pose proof Hk as Hk'. unfold key_of in Hk'. rewrite Hn in Hk'.
  destruct (hash_key n) as [k'|]; [|done]. injection Hk' as ->.
  split; [done|].
  destruct (last_named_is_Some dims dim k Hin Hk) as [o Ho].
  specialize (Hlook k). rewrite Ho in Hlook.
  destruct (dimensions_metadata p !! k); [eauto|done].
Qed.

Lemma public_dimensions_after_init_example :
  ∃ names,
    public_dimensions (provider model_options) = Ok names ∧
    (∀ v, metadata (provider model_options) !! "public_dimensions" = Some v →
          names = v) ∧
    (metadata (provider model_options) !! "public_dimensions" = None →
     ∃ dims l,
       iter (dget (metadata (provider model_options)) "dimensions" (JList []))
         = Ok dims ∧
       names = JList l ∧
       Forall2 (λ dim n,
                getitem dim "name" = Ok n ∧
                ∃ k, hash_key n = Ok k ∧
                     is_Some (dimensions_metadata (provider model_options)
                                !! k)) dims l).
Proof.
  apply (public_dimensions_after_init (JDict ∅) model_options).
  vm_compute. reflexivity.
Defined.

Lemma cube_info_name cube info :
  cube_info cube = Ok info →
  ∃ n, getitem cube "name" = Ok n ∧ getitem info "name" = Ok n.
Proof.
  unfold cube_info. intros (n & Hn & H)%rbind_Ok_inv.
  apply rbind_Ok_inv in H as (label & _ & H).
  apply rbind_Ok_inv in H as (c0 & _ & H).
  apply rbind_Ok_inv in H as (category & _ & H).
  apply rbind_Ok_inv in H as (i & _ & [= <-]).
  exists n. split; [done|]. cbn [getitem]. by rewrite lookup_insert_eq.
Qed.

(** Every cube that [list_cubes] lists is one the provider can look up:
    the listing has one entry per cube of the model, in model order, and the
    name of each entry is a key of the cube index. *)
Theorem listed_cubes_are_indexed defaults user p infos :
  __init__ defaults user = Ok p →
  list_cubes p = Ok infos →
  ∃ cubes l,
    iter (dget (metadata p) "cubes" (JList [])) = Ok cubes ∧
    infos = JList l ∧
    Forall2 (λ cube info,
             ∃ n k, getitem cube "name" = Ok n ∧
                    getitem info "name" = Ok n ∧
                    hash_key n = Ok k ∧
                    is_Some (cubes_metadata p !! k)) cubes l.
Proof.
  intros Hp Hlist. pose proof Hp as Hinv.
  apply init_Ok in Hinv
    as (md & dims & cubes & Hmd & _ & _ & Hcubes & Hcm & _ & _).
  unfold list_cubes, dget in *.
  rewrite (init_metadata_lookup defaults user p md) in * by done.
  fold (dget md "cubes" (JList [])) in *. rewrite Hcubes, rbind_Ok in Hlist.
  apply rbind_Ok_inv in Hlist as (l & Hl & [= <-]).
  exists cubes, l. split_and!; [done..|].
  apply foldM_index_by_name in Hcm as [Hall Hlook].
  apply mapM_Ok_Forall2 in Hl.
  eapply Forall2_impl_elem_of; [exact Hl|].
  intros cube info Hin (n & Hn & Hinfo)%cube_info_name.
  rewrite Forall_forall in Hall. destruct (Hall cube Hin) as [k Hk].
  exists n, k. pose proof Hk as Hk'. unfold key_of in Hk'. rewrite Hn in Hk'.
  destruct (hash_key n) as [k'|]; [|done]. injection Hk' as ->.
  split_and!; [done..|].
  destruct (last_named_is_Some cubes cube k Hin Hk) as [o Ho].
  specialize (Hlook k). rewrite Ho in Hlook.
  destruct (cubes_metadata p !! k); [eauto|done].
Qed.

Lemma listed_cubes_are_indexed_example :
  ∃ cubes l,
    iter (dget (metadata (provider model_two_sales)) "cubes" (JList []))
      = Ok cubes ∧
    JList [obj [("name", JStr "sales"); ("label", JStr "first");
                ("category", JNull); ("info", JDict ∅)];
           obj [("name", JStr "sales"); ("label", JStr "second");
                ("category", JNull); ("info", JDict ∅)]] = JList l ∧
    Forall2 (λ cube info,
             ∃ n k, getitem cube "name" = Ok n ∧
                    getitem info "name" = Ok n ∧
                    hash_key n = Ok k ∧
                    is_Some (cubes_metadata (provider model_two_sales) !! k))
            cubes l.
Proof.
  apply (listed_cubes_are_indexed (JDict ∅) model_two_sales);
    vm_compute; reflexivity.
Defined.

(** ** What cube resolution keeps *)

Lemma merge_browser_options_frame md self :
  let self' := (merge_browser_options md self).2 in
  cubes_metadata self' = cubes_metadata self ∧
  dimensions_metadata self' = dimensions_metadata self ∧
  options self' = options self ∧
  ∀ k, k ≠ "browser_options" → metadata self' !! k = metadata self !! k.
Proof.
  unfold merge_browser_options. destruct (truthy _); [|done].
  destruct (metadata self !! "browser_options") as [bo|]; [|done].
  destruct (update bo _) as [u|e]; [|done].
  cbn. split_and!; [done..|]. intros k Hk. by rewrite lookup_insert_ne.
Qed.

(** Whatever its outcome, a cube resolution leaves the provider's cube
    index, dimension index and options as they were, and writes to no key of
    the stored model other than ["browser_options"]. *)
Theorem cube_metadata_frame name self :
  let self' := (cube_metadata name self).2 in
  cubes_metadata self' = cubes_metadata self ∧
  dimensions_metadata self' = dimensions_metadata self ∧
  options self' = options self ∧
  ∀ k, k ≠ "browser_options" → metadata self' !! k = metadata self !! k.
Proof.
  cbv zeta. rewrite cube_metadata_state.
  destruct (cubes_metadata self !! KStr name) as [cube|]; [|done].
  apply merge_browser_options_frame.
Qed.

(** Resolving cube "A" of [model_AB], which does write the model's browser
    options: the model's name and cubes are as before. *)
Lemma cube_metadata_frame_example :
  let p := provider model_AB in
  let pA := (cube_metadata "A" p).2 in
  cubes_metadata pA = cubes_metadata p ∧
  dimensions_metadata pA = dimensions_metadata p ∧
  options pA = options p ∧
  ∀ k, k ≠ "browser_options" → metadata pA !! k = metadata p !! k.
Proof. exact (cube_metadata_frame "A" (provider model_AB)). Defined.

(** A cube without browser options of its own, and any cube of a model
    without browser options, resolves without writing to the provider. *)
Theorem cube_metadata_leaves_provider name self cube :
  cubes_metadata self !! KStr name = Some cube →
  truthy (dget cube "browser_options" JNull) = false ∨
  metadata self !! "browser_options" = None →
  (cube_metadata name self).2 = self.
Proof.
  intros Hcube Hbo. rewrite cube_metadata_state, Hcube.
  unfold merge_browser_options.
  assert (∀ b : bool,
            dget (if b
                  then <["datastore" :=
                           dget (metadata self) "datastore" JNull]> cube
                  else cube) "browser_options" JNull =
            dget cube "browser_options" JNull) as ->.
  { intros []; [|done]. unfold dget. by rewrite lookup_insert_ne. }
  destruct Hbo as [-> | ->]; [done|].
  by destruct (truthy _).
Qed.

Lemma cube_metadata_leaves_provider_example :
  (cube_metadata "B" (provider model_AB)).2 = provider model_AB.
Proof.
  apply (cube_metadata_leaves_provider "B" (provider model_AB)
           (fields [("name", JStr "B")])).
  - vm_compute. reflexivity.
  - left. vm_compute. reflexivity.
Defined.

Lemma cube_metadata_unfold name self :
  cube_metadata name self =
  match cubes_metadata self !! KStr name with
  | Some cube =>
      mbind_M (merge_browser_options (with_datastore (metadata self) cube))
              (λ md, mbind_M (merge_mappings md) (merge_joins name)) self
  | None => (Raise (NoSuchCubeError name), self)
  end.
Proof.
  unfold cube_metadata, lookup_cube. unfold mbind_M at 1 2, reading at 1.
  destruct (cubes_metadata self !! KStr name) as [cube|]; [|done].
  by rewrite merge_datastore_eq.
Qed.

Lemma union_absorb (c d : dict) : c ∪ (c ∪ d) = c ∪ d.
Proof.
  apply map_eq. intros k. rewrite !lookup_union.
  by destruct (c !! k), (d !! k).
Qed.

(** The browser options step, run again on the provider it left, gives the
    same outcome and leaves that provider as it is. *)
Lemma merge_browser_options_again md self :
  merge_browser_options md (merge_browser_options md self).2 =
  merge_browser_options md self.
Proof.
  unfold merge_browser_options.
  destruct (truthy (dget md "browser_options" JNull)) eqn:Htruthy; [|done].
  destruct (metadata self !! "browser_options") as [bo|] eqn:Hbo.
  2: { cbn [snd]. by rewrite Hbo. }
  destruct (update bo _) as [u|e] eqn:Hu.
  2: { cbn [snd]. by rewrite Hbo, Hu. }
  cbn [snd metadata dimensions_metadata cubes_metadata options].
  rewrite lookup_insert_eq.
  unfold update in Hu. destruct bo as [| | | | |d]; try done.
  destruct (as_dict (dget md "browser_options" JNull)) as [c|e] eqn:Hc;
    [|done].
  injection Hu as <-. cbn [update]. rewrite Hc. cbn [rbind].
  by rewrite union_absorb, insert_insert_eq.
Qed.

(** Resolving the same cube again gives the same outcome and no longer
    changes the provider. *)
Theorem cube_metadata_again name self :
  cube_metadata name (cube_metadata name self).2 = cube_metadata name self.
Proof.
  assert (cubes_metadata (cube_metadata name self).2 = cubes_metadata self ∧
          ∀ k, k ≠ "browser_options" →
               metadata (cube_metadata name self).2 !! k =
               metadata self !! k) as [Hcubes Hkeys].
  { rewrite cube_metadata_state.
    destruct (cubes_metadata self !! KStr name) as [cube|]; [|done].
    match goal with
    | |- context [merge_browser_options ?md self] =>
        destruct (merge_browser_options_frame md self) as (? & _ & _ & ?)
    end. done. }
  pose proof (cube_metadata_state name self) as Hstate.
  pose proof (cube_metadata_unfold name (cube_metadata name self).2) as E2.
  pose proof (cube_metadata_unfold name self) as E1.
  rewrite Hcubes in E2.
  destruct (cubes_metadata self !! KStr name) as [cube|] eqn:Hcube.
  2: { rewrite E2. by rewrite E1 at 1. }
  assert (with_datastore (metadata (cube_metadata name self).2) cube =
          with_datastore (metadata self) cube) as Hds.
  { unfold with_datastore, dget. by rewrite Hkeys. }
  rewrite Hds in E2.
  assert ((if negb (truthy (dget cube "datastore" JNull))
           then <["datastore" :=
                    dget (metadata self) "datastore" JNull]> cube
           else cube) = with_datastore (metadata self) cube) as Hwd.
  { unfold with_datastore. by destruct (truthy _). }
  rewrite Hwd in Hstate.
  rewrite E2, Hstate, E1. unfold mbind_M at 1 3.
  rewrite merge_browser_options_again.
  by destruct (merge_browser_options _ self) as [[md1|e] s1].
Qed.

(** ** What a resolved cube holds *)

(** A resolved cube keeps every key of the cube other than the four that
    resolution settles. *)
Theorem resolved_cube_keeps_other_keys name self cube md k :
  cubes_metadata self !! KStr name = Some cube →
  (cube_metadata name self).1 = Ok md →
  k ∉ ["datastore"; "browser_options"; "mappings"; "joins"] →
  md !! k = cube !! k.
Proof.
  intros Hcube Hmd Hk.
  apply cube_metadata_Ok in Hmd as (cube' & bo & mp & merged & Hc & _ & ->).
  rewrite Hcube in Hc. injection Hc as <-.
  rewrite !not_elem_of_cons in Hk. destruct Hk as (? & ? & ? & ? & _).
  rewrite lookup_insert_ne by done. rewrite lookup_delete_ne by done.
  rewrite lookup_insert_ne by done. rewrite lookup_delete_ne by done.
  rewrite lookup_insert_ne by done. by apply with_datastore_lookup_ne.
Qed.

Lemma resolved_cube_keeps_other_keys_example :
  ∃ md, (cube_metadata "A" (provider model_AB)).1 = Ok md ∧
        md !! "name" = Some (JStr "A").
Proof.
  destruct (Ok_lookup (cube_metadata "A" (provider model_AB)).1
              "datastore" JNull) as (md & Hmd & _);
    [vm_compute; reflexivity|].
  exists md. split; [exact Hmd|].
  rewrite (resolved_cube_keeps_other_keys "A" (provider model_AB)
             (fields [("name", JStr "A");
                      ("browser_options", obj [("b", JNum 2)])]) md "name").
  - vm_compute. reflexivity.
  - vm_compute. reflexivity.
  - exact Hmd.
  - rewrite !not_elem_of_cons. split_and!; try discriminate.
    apply not_elem_of_nil.
Defined.

(** The mappings and the browser options of a resolved cube are the model's,
    overwritten key by key with the cube's. *)
Theorem resolved_mappings_and_browser_options name self cube merged_joins :
  cubes_metadata self !! KStr name = Some cube →
  well_typed (metadata self) cube = true →
  resolve_joins name (dget (metadata self) "joins" (JList []))
                (dget cube "joins" (JList [])) = Ok merged_joins →
  ∃ md, (cube_metadata name self).1 = Ok md ∧
        md !! "mappings" =
          Some (JDict (dict_of cube "mappings" ∪
                       dict_of (metadata self) "mappings")) ∧
        md !! "browser_options" =
          Some (JDict (dict_of cube "browser_options" ∪
                       dict_of (metadata self) "browser_options")).
Proof.
  intros Hcube Hwt Hjoins.
  rewrite (cube_metadata_well_typed name self cube Hcube Hwt), Hjoins.
  eexists. split; [reflexivity|]. unfold resolved. split.
  - rewrite lookup_insert_ne by done. rewrite lookup_delete_ne by done.
    apply lookup_insert_eq.
  - rewrite lookup_insert_ne by done. rewrite lookup_delete_ne by done.
    rewrite lookup_insert_ne by done. rewrite lookup_delete_ne by done.
    apply lookup_insert_eq.
Qed.

Lemma resolved_mappings_and_browser_options_example :
  ∃ md, (cube_metadata "sales" (provider model_with_mappings)).1 = Ok md ∧
        md !! "mappings" =
          Some (obj [("amount", JStr "ft.amt"); ("date", JStr "dm.date")]) ∧
        md !! "browser_options" = Some (obj [("limit", JNum 10)]).
Proof.
  destruct (resolved_mappings_and_browser_options
              "sales" (provider model_with_mappings)
              (fields [("name", JStr "sales");
                       ("mappings", obj [("amount", JStr "ft.amt")])])
              (JList []))
    as (md & Hmd & Hmap & Hbo); try (vm_compute; reflexivity).
  exists md. split; [exact Hmd|]. rewrite Hmap, Hbo.
  split; vm_compute; reflexivity.
Defined.

(** ** Lookup misses *)

(** For a name that is no cube of the provider, [cube] raises
    [NoSuchCubeError] with that name, builds nothing and leaves the provider
    as it is; for a name that is no dimension, [dimension] raises
    [NoSuchDimensionError] and builds nothing. *)
Theorem unknown_names_build_nothing {Cube Dimension Templates : Type}
    (create_cube : dict → Result Cube)
    (create_dimension : dict → Templates → string → Result Dimension)
    self name templates :
  (cubes_metadata self !! KStr name = None →
   cube create_cube name self = (Raise (NoSuchCubeError name), self)) ∧
  (dimensions_metadata self !! KStr name = None →
   dimension create_dimension self name templates =
     Raise (NoSuchDimensionError name)).
Proof.
  split; intros Hnone.
  - unfold cube, mbind_M. by rewrite cube_metadata_unfold, Hnone.
  - unfold dimension. by rewrite Hnone.
Qed.

Lemma unknown_names_build_nothing_example :
  cube (Cube := dict) Ok "nope" (provider model_options) =
    (Raise (NoSuchCubeError "nope"), provider model_options) ∧
  dimension (Dimension := dict) (Templates := unit) (λ md _ _, Ok md)
            (provider model_options) "nope" tt =
    Raise (NoSuchDimensionError "nope").
Proof.
  destruct (unknown_names_build_nothing
              (Cube := dict) (Dimension := dict) (Templates := unit)
              Ok (λ md _ _, Ok md) (provider model_options) "nope" tt)
    as [Hcube Hdim].
  split; [apply Hcube|apply Hdim]; vm_compute; reflexivity.
Defined.

(** ** An incomplete cube join *)

Lemma validate_join_incomplete nm (join : dict) :
  complete join = false →
  validate_join nm tt (JDict join) =
  Raise (ModelError (if bool_decide (is_Some (join !! "master"))
                     then NoDetailInJoin nm (dget join "name" JNull)
                     else NoMasterInJoin nm (dget join "name" JNull))).
Proof.
  unfold complete, validate_join. cbn [py_in get rbind].
  destruct (bool_decide (is_Some (join !! "master"))); cbn [andb negb];
    [|done].
  by intros ->.
Qed.

(** When the model has no joins, the first cube join without master or
    without detail makes the resolution fail with an error that cites the
    cube name and that join's name; the master is looked for first. *)
Theorem incomplete_cube_join_is_reported self name cube
    (before : list dict) (join : dict) (after : list json) :
  cubes_metadata self !! KStr name = Some cube →
  well_typed (metadata self) cube = true →
  truthy (dget (metadata self) "joins" (JList [])) = false →
  dget cube "joins" (JList []) =
    JList ((JDict <$> before) ++ JDict join :: after) →
  forallb complete before = true →
  complete join = false →
  (cube_metadata name self).1 =
  Raise (ModelError
           (if bool_decide (is_Some (join !! "master"))
            then NoDetailInJoin (JStr name) (dget join "name" JNull)
            else NoMasterInJoin (JStr name) (dget join "name" JNull))).
Proof.
  intros Hcube Hwt Hmodel Hjoins Hbefore Hjoin.
  rewrite (cube_metadata_well_typed name self cube Hcube Hwt), Hjoins.
  unfold resolve_joins. rewrite Hmodel, andb_false_r.
  cbn [rbind iter].
  rewrite foldM_app, foldM_validate_join, rbind_Ok, foldM_cons by done.
  by rewrite validate_join_incomplete.
Qed.

Lemma incomplete_cube_join_is_reported_example :
  (cube_metadata "sales" (provider model_cube_join_no_master)).1 =
  Raise (ModelError (NoMasterInJoin (JStr "sales") (JStr "j2"))).
Proof.
  apply (incomplete_cube_join_is_reported
           (provider model_cube_join_no_master) "sales"
           (fields [("name", JStr "sales");
                    ("joins", JList [join_a;
                                     obj [("name", JStr "j2");
                                          ("detail", JStr "d.id")]])])
           [fields [("name", JStr "a"); ("master", JStr "f.id");
                    ("detail", JStr "d.id")]]
           (fields [("name", JStr "j2"); ("detail", JStr "d.id")]) []);
    vm_compute; reflexivity.
Defined.

(** ** Options *)

(** The options of a cube: a key is taken from the cube's browser options,
    else from the cube's options, else from the provider's options. *)
Theorem cube_options_precedence self name cube :
  cubes_metadata self !! KStr name = Some cube →
  dict_or_absent cube "options" = true →
  dict_or_absent cube "browser_options" = true →
  ∃ opts,
    cube_options self name = Ok opts ∧
    ∀ k, opts !! k =
         match dict_of cube "browser_options" !! k with
         | Some v => Some v
         | None =>
             match dict_of cube "options" !! k with
             | Some v => Some v
             | None => options self !! k
             end
         end.
Proof.
  intros Hcube Ho Hb. unfold cube_options, dget. rewrite Hcube.
  rewrite (dict_or_absent_default cube "options"),
    (dict_or_absent_default cube "browser_options") by done.
  cbn [update as_dict rbind]. eexists. split; [reflexivity|].
  intros k. rewrite !lookup_union.
  by destruct (dict_of cube "browser_options" !! k),
       (dict_of cube "options" !! k), (options self !! k).
Qed.

Lemma cube_options_precedence_example :
  cube_options (provider model_option_levels) "sales" =
  Ok (fields [("a", JStr "cube browser"); ("b", JStr "cube");
              ("c", JStr "model browser"); ("d", JStr "model")]).
Proof.
  destruct (cube_options_precedence
              (provider model_option_levels) "sales"
              (fields [("name", JStr "sales");
                       ("options", obj [("a", JStr "cube");
                                        ("b", JStr "cube")]);
                       ("browser_options",
                        obj [("a", JStr "cube browser")])]))
    as (opts & Hopts & _).
  - vm_compute. reflexivity.
  - vm_compute. reflexivity.
  - vm_compute. reflexivity.
  - rewrite Hopts. vm_compute in Hopts. injection Hopts as <-.
    vm_compute. reflexivity.
Defined.

(** The options of a provider that was built are the model's options
    overwritten with the model's browser options, and the ["options"] object
    of the stored model, when there is one, holds the same. *)
Theorem init_options defaults user p :
  __init__ defaults user = Ok p →
  ∃ md o b,
    _merge_metadata defaults user = Ok md ∧
    dget md "options" (JDict ∅) = JDict o ∧
    as_dict (dget md "browser_options" (JDict ∅)) = Ok b ∧
    options p = b ∪ o ∧
    (is_Some (md !! "options") →
     metadata p !! "options" = Some (JDict (b ∪ o))).
Proof.
  intros (md & _ & _ & Hmd & _ & _ & _ & _ & Hopts & Hmeta)%init_Ok.
  unfold update in Hopts.
  destruct (dget md "options" (JDict ∅)) as [| | | | |o] eqn:Ho; try done.
  apply rbind_Ok_inv in Hopts as (b & Hb & [= Hp]).
  exists md, o, b. split_and!; [done..|].
  intros Hsome. rewrite Hmeta, bool_decide_eq_true_2 by done.
  by rewrite lookup_insert_eq, Hp.
Qed.

Lemma init_options_example :
  ∃ md o b,
    _merge_metadata (JDict ∅) model_option_levels = Ok md ∧
    dget md "options" (JDict ∅) = JDict o ∧
    as_dict (dget md "browser_options" (JDict ∅)) = Ok b ∧
    options (provider model_option_levels) = b ∪ o ∧
    (is_Some (md !! "options") →
     metadata (provider model_option_levels) !! "options" =
       Some (JDict (b ∪ o))).
Proof.
  apply (init_options (JDict ∅) model_option_levels).
  vm_compute. reflexivity.
Defined.

(** ** Validation of well-formed documents *)

Section Validation.
Variable iter_errors : schema → json → list schema_error.

Lemma foldl_not_described (dims : list json) errors :
  foldl (λ errors dim,
         if is_basestring dim then (errors ++ [not_described dim])%list
         else errors) errors dims =
  (errors ++ (not_described <$> filter (λ dim, is_basestring dim) dims))%list.
Proof.
  revert errors. induction dims as [|dim dims IH]; intros errors.
  { simpl. by rewrite app_nil_r. }
  cbn [foldl]. rewrite IH, filter_cons.
  destruct (is_basestring dim) eqn:Hdim.
  - rewrite decide_True by done.
    by rewrite fmap_cons, <- app_assoc.
  - by rewrite decide_False by (by intros []).
Qed.

(** The model-level check raises on no document: what is not a non-empty
    list under ["dimensions"] adds nothing to the schema errors. *)
Lemma validate_model_issues (metadata : dict) :
  ModelMetadataValidator.validate_model iter_errors (JDict metadata) =
  Ok (ModelMetadataValidator._collect_errors iter_errors "model" JNull
        model_schema (JDict metadata) ++
      (not_described <$>
         filter (λ dim, is_basestring dim) (list_of metadata "dimensions")))%list.
Proof.
  unfold ModelMetadataValidator.validate_model, list_of.
  cbn [get rbind].
  destruct (metadata !! "dimensions") as [[| | | |dims|]|];
    cbn [default from_option id];
    try (destruct (truthy _); cbn; by rewrite app_nil_r).
  destruct dims as [|dim dims].
  { cbn. by rewrite app_nil_r. }
  cbn [truthy is_list andb iter rbind]. by rewrite foldl_not_described.
Qed.

(** The model-level check reports, after the schema errors, one advisory
    issue for each bare string of the ["dimensions"] list, in list order and
    as often as the string occurs. *)
Theorem validate_model_advisories (metadata : dict) (dims : list json) :
  metadata !! "dimensions" = Some (JList dims) →
  ModelMetadataValidator.validate_model iter_errors (JDict metadata) =
  Ok (ModelMetadataValidator._collect_errors iter_errors "model" JNull
        model_schema (JDict metadata) ++
      (not_described <$> filter (λ dim, is_basestring dim) dims))%list.
Proof.
  intros Hdims. rewrite validate_model_issues. unfold list_of.
  by rewrite Hdims.
Qed.

Lemma collect_errors_severity scope0 obj validator doc :
  Forall (λ issue, severity issue = "error")
    (ModelMetadataValidator._collect_errors iter_errors scope0 obj validator
       doc).
Proof.
  unfold ModelMetadataValidator._collect_errors.
  apply Forall_fmap, Forall_forall. by intros error _.
Qed.

Lemma filter_all {A} (P : A → Prop) `{∀ x, Decision (P x)} (l : list A) :
  Forall P l → filter P l = l.
Proof.
  induction 1 as [|x l Hx _ IH]; [done|].
  by rewrite filter_cons, decide_True, IH.
Qed.

(** A dimension object that has both ["levels"] and ["attributes"] gets,
    besides the schema errors, exactly one issue of severity "error", and
    that issue names the dimension. *)
Theorem both_levels_and_attributes_one_error (dim : dict) :
  is_Some (dim !! "levels") → is_Some (dim !! "attributes") →
  ∃ issues,
    ModelMetadataValidator.validate_dimension iter_errors (JDict dim) =
      Ok issues ∧
    filter (λ issue, severity issue = "error") issues =
      (ModelMetadataValidator._collect_errors iter_errors "dimension"
         (dget dim "name" JNull) dimension_schema (JDict dim) ++
       [ {| severity := "error"; scope := "dimension";
            object := dget dim "name" JNull; property := None;
            message := "Both levels and attributes specified" |} ])%list.
Proof.
  intros Hl Ha. unfold ModelMetadataValidator.validate_dimension.
  cbn [get rbind py_in].
  rewrite (bool_decide_eq_true_2 _ Hl), (bool_decide_eq_true_2 _ Ha).
  cbn [negb andb]. eexists. split; [reflexivity|].
  pose proof (collect_errors_severity "dimension" (dget dim "name" JNull)
                dimension_schema (JDict dim)) as Hsev.
  fold (dget dim "name" JNull).
  destruct (bool_decide (is_Some (dim !! "default_hierarchy_name")));
    cbn [negb]; rewrite !filter_app, (filter_all _ _ Hsev).
  all: rewrite ?filter_cons, ?filter_nil; cbn [severity].
  all: repeat (case_decide; try done).
  all: by rewrite ?app_nil_r.
Qed.

Lemma validate_cube_object (cube : dict) :
  ModelMetadataValidator.validate_cube iter_errors (JDict cube) =
  Ok (ModelMetadataValidator._collect_errors iter_errors "cube"
        (dget cube "name" JNull) cube_schema (JDict cube)).
Proof. reflexivity. Qed.

Lemma validate_dimension_object (dim : dict) :
  ∃ issues,
    ModelMetadataValidator.validate_dimension iter_errors (JDict dim) =
      Ok issues.
Proof.
  unfold ModelMetadataValidator.validate_dimension. cbn [get rbind py_in].
  destruct (negb (bool_decide (is_Some (dim !! "levels"))) &&
            negb (bool_decide (is_Some (dim !! "attributes")))); [eauto|].
  destruct (bool_decide (is_Some (dim !! "levels")) &&
            bool_decide (is_Some (dim !! "attributes"))); eauto.
Qed.

Lemma foldM_collect {A B} (check : A → Result (list B)) items errors :
  (∀ x, x ∈ items → ∃ found, check x = Ok found) →
  ∃ per_item,
    Forall2 (λ x found, check x = Ok found) items per_item ∧
    foldM (λ errors x, found <- check x; Ok (errors ++ found)%list)
          items errors = Ok (errors ++ List.concat per_item)%list.
Proof.
  revert errors. induction items as [|x items IH]; intros errors Hall.
  { exists []. split; [constructor|]. cbn. by rewrite app_nil_r. }
  destruct (Hall x) as [found Hfound]; [apply list_elem_of_here|].
  destruct (IH (errors ++ found)%list) as (per_item & Hper & Hfold).
  { intros y Hy. apply Hall. by right. }
  exists (found :: per_item). split; [by constructor|].
  rewrite foldM_cons, Hfound. cbn [rbind]. rewrite Hfold.
  cbn [List.concat]. by rewrite app_assoc.
Qed.

(** Validation does not raise on a document whose cubes and dimensions are
    lists of objects, whatever the schemas report: it returns the issues of
    the model, then those of each cube, then those of each dimension. *)
Theorem validate_collects_all (metadata : dict) (cubes dims : list dict) :
  dget metadata "cubes" (JList []) = JList (JDict <$> cubes) →
  dget metadata "dimensions" (JList []) = JList (JDict <$> dims) →
  ∃ per_cube per_dimension,
    Forall2 (λ cube found,
             ModelMetadataValidator.validate_cube iter_errors cube = Ok found)
            (JDict <$> cubes) per_cube ∧
    Forall2 (λ dim found,
             ModelMetadataValidator.validate_dimension iter_errors dim
               = Ok found)
            (JDict <$> dims) per_dimension ∧
    validate_model iter_errors (JDict metadata) =
      Ok (ModelMetadataValidator._collect_errors iter_errors "model" JNull
            model_schema (JDict metadata) ++
          List.concat per_cube ++ List.concat per_dimension)%list.
Proof.
  intros Hcubes Hdims.
  assert (ModelMetadataValidator.validate_model iter_errors (JDict metadata)
          = Ok (ModelMetadataValidator._collect_errors iter_errors "model"
                  JNull model_schema (JDict metadata))) as Hmodel.
  { unfold dget in Hdims.
    destruct (metadata !! "dimensions") as [v|] eqn:Hv.
    - cbn in Hdims. subst v. rewrite validate_model_issues.
      unfold list_of. rewrite Hv.
      assert (filter (λ dim, is_basestring dim) (JDict <$> dims) = [])
        as ->.
      { clear. induction dims as [|d dims IH]; [done|].
        rewrite fmap_cons, filter_cons, decide_False; [done|]. cbn. auto. }
      by rewrite app_nil_r.
    - unfold ModelMetadataValidator.validate_model. cbn [get rbind].
      by rewrite Hv. }
  set (model_issues := ModelMetadataValidator._collect_errors iter_errors
                         "model" JNull model_schema (JDict metadata)) in *.
  destruct (foldM_collect (ModelMetadataValidator.validate_cube iter_errors)
              (JDict <$> cubes) model_issues) as (per_cube & Hpc & Hfc).
  { intros x (cube & -> & _)%list_elem_of_fmap. rewrite validate_cube_object.
    eauto. }
  destruct (foldM_collect
              (ModelMetadataValidator.validate_dimension iter_errors)
              (JDict <$> dims) (model_issues ++ List.concat per_cube)%list)
    as (per_dim & Hpd & Hfd).
  { intros x (dim & -> & _)%list_elem_of_fmap.
    apply validate_dimension_object. }
  exists per_cube, per_dim. split_and!; [done..|].
  unfold validate_model, ModelMetadataValidator.validate.
  rewrite Hmodel, rbind_Ok.
  assert (ModelMetadataValidator.validate_each (JDict metadata) "cubes"
            (ModelMetadataValidator.validate_cube iter_errors) model_issues
          = Ok (model_issues ++ List.concat per_cube)%list) as ->.
  { unfold ModelMetadataValidator.validate_each. cbn [py_in rbind getitem].
    unfold dget in Hcubes.
    destruct (metadata !! "cubes") as [v|] eqn:Hv.
    - cbn in Hcubes. subst v. rewrite bool_decide_eq_true_2 by eauto.
      cbn [rbind iter]. exact Hfc.
    - rewrite bool_decide_eq_false_2 by (by intros [? [=]]).
      cbn in Hcubes. injection Hcubes as Hc. symmetry in Hc.
      apply fmap_nil_inv in Hc. subst cubes.
      inversion Hpc. cbn. by rewrite app_nil_r. }
  rewrite rbind_Ok.
  unfold ModelMetadataValidator.validate_each. cbn [py_in rbind getitem].
  unfold dget in Hdims.
  destruct (metadata !! "dimensions") as [v|] eqn:Hv.
  - cbn in Hdims. subst v. rewrite bool_decide_eq_true_2 by eauto.
    cbn [rbind iter]. rewrite Hfd. by rewrite app_assoc.
  - rewrite bool_decide_eq_false_2 by (by intros [? [=]]).
    cbn in Hdims. injection Hdims as Hd. symmetry in Hd.
    apply fmap_nil_inv in Hd. subst dims.
    inversion Hpd. cbn. by rewrite !app_nil_r.
Qed.

End Validation.

(** Two bare strings around a dimension object: two advisory issues, one
    for each occurrence. *)
Lemma validate_model_advisories_example :
  ModelMetadataValidator.validate_model no_schema_errors
    model_mixed_dimensions =
  Ok [not_described (JStr "time"); not_described (JStr "time")].
Proof.
  etrans.
  - apply (validate_model_advisories no_schema_errors
             (fields [("dimensions",
                       JList [JStr "time"; obj [("name", JStr "date")];
                              JStr "time"])])
             [JStr "time"; obj [("name", JStr "date")]; JStr "time"]).
    vm_compute. reflexivity.
  - vm_compute. reflexivity.
Defined.

(** The dimension "date" with levels and attributes. *)
Lemma both_levels_and_attributes_one_error_example :
  ∃ issues,
    ModelMetadataValidator.validate_dimension no_schema_errors
      dimension_both = Ok issues ∧
    filter (λ issue, severity issue = "error") issues =
      [ {| severity := "error"; scope := "dimension";
           object := JStr "date"; property := None;
           message := "Both levels and attributes specified" |} ].
Proof.
  destruct (both_levels_and_attributes_one_error no_schema_errors
              (fields [("name", JStr "date");
                       ("levels", JList [JStr "year"]);
                       ("attributes", JList [JStr "year"])])
              ltac:(eexists; vm_compute; reflexivity)
              ltac:(eexists; vm_compute; reflexivity))
    as (issues & Hissues & Herrors).
  exists issues. split; [exact Hissues|].
  rewrite Herrors. vm_compute. reflexivity.
Defined.

(** A model with one cube and one dimension. *)
Lemma validate_collects_all_example :
  ∃ per_cube per_dimension,
    Forall2 (λ cube found,
             ModelMetadataValidator.validate_cube no_schema_errors cube
               = Ok found)
            [obj [("name", JStr "sales")]] per_cube ∧
    Forall2 (λ dim found,
             ModelMetadataValidator.validate_dimension no_schema_errors dim
               = Ok found)
            [dimension_both] per_dimension ∧
    validate_model no_schema_errors model_dimension_both =
      Ok (List.concat per_cube ++ List.concat per_dimension)%list.
Proof.
  apply (validate_collects_all no_schema_errors
           (fields [("cubes", JList [obj [("name", JStr "sales")]]);
                    ("dimensions", JList [dimension_both])])
           [fields [("name", JStr "sales")]]
           [fields [("name", JStr "date");
                    ("levels", JList [JStr "year"]);
                    ("attributes", JList [JStr "year"])]]).
  - vm_compute. reflexivity.
  - vm_compute. reflexivity.
Defined.

(** ** Assembly of a bundle *)

(** The model under assembly: the main object with its two lists. *)
Lemma assembled_insert_dimensions (main : dict) (ds ds' cs : list dict) :
  <["dimensions" := JList (JDict <$> ds')]>
    (<["cubes" := JList (JDict <$> cs)]>
       (<["dimensions" := JList (JDict <$> ds)]> main)) =
  <["cubes" := JList (JDict <$> cs)]>
    (<["dimensions" := JList (JDict <$> ds')]> main).
Proof. by rewrite insert_insert_ne, insert_insert_eq. Qed.

Lemma is_fragment_not_json prefixes filename :
  String.eqb (splitext_ext filename) ".json" = false →
  is_fragment prefixes filename = false.
Proof. unfold is_fragment. by intros ->. Qed.

Lemma fragment_named fs dirname filename :
  from_option named false (fragment fs dirname filename) = true →
  ∃ desc name,
    resource fs (path_join dirname filename) = Some (Some (JDict desc)) ∧
    fragment fs dirname filename = Some desc ∧
    desc !! "name" = Some (JStr name).
Proof.
  unfold fragment.
  destruct (resource fs (path_join dirname filename)) as [[[| | | | |desc]|]|];
    try done.
  cbn. intros [name Hname]%bool_decide_eq_true_1.
  apply join_name_Some in Hname. eauto.
Qed.

(** One file of the walk: a dimension file is appended to the dimensions, a
    cube file to the cubes, any other file is passed over. *)
Lemma load_object_file_fragment fs dirname filename (main : dict)
    (ds cs : list dict) :
  negb (is_fragment ["dim"; "dimension"; "cube"] filename)
  || from_option named false (fragment fs dirname filename) = true →
  load_object_file fs dirname
    (JDict (<["cubes" := JList (JDict <$> cs)]>
              (<["dimensions" := JList (JDict <$> ds)]> main))) filename =
  Ok (JDict
        (<["cubes" :=
             JList (JDict <$>
                      (cs ++ omap (fragment fs dirname)
                               (List.filter (is_fragment ["cube"])
                                  [filename]))%list)]>
           (<["dimensions" :=
                JList (JDict <$>
                         (ds ++ omap (fragment fs dirname)
                                  (List.filter
                                     (is_fragment ["dim"; "dimension"])
                                     [filename]))%list)]> main))).
Proof.
  intros Hnamed. cbn [List.filter].
  destruct (String.eqb (splitext_ext filename) ".json") eqn:Hext.
  2:{ rewrite !is_fragment_not_json by done. cbn [omap].
      rewrite !app_nil_r. unfold load_object_file. by rewrite Hext. }
  unfold is_fragment in *. rewrite Hext in *.
  cbn [andb existsb negb orb] in *. rewrite !orb_false_r in *.
  apply String.eqb_eq in Hext.
  destruct (String.eqb (split_prefix filename) "dim") eqn:Hdim;
    [|destruct (String.eqb (split_prefix filename) "dimension") eqn:Hdimension;
      [|destruct (String.eqb (split_prefix filename) "cube") eqn:Hcube]].
  - apply String.eqb_eq in Hdim.
    destruct (fragment_named fs dirname filename Hnamed)
      as (desc & name & Hres & Hfrag & Hname).
    rewrite Hdim. cbn [String.eqb Ascii.eqb Bool.eqb orb andb omap list_omap].
    rewrite Hfrag. cbn [omap list_omap]. rewrite app_nil_r.
    rewrite (load_object_file_appends_dimension fs dirname filename _ desc
               ds name Hext (or_introl Hdim) Hres Hname).
    + by rewrite assembled_insert_dimensions.
    + by rewrite lookup_insert_ne, lookup_insert_eq.
  - apply String.eqb_eq in Hdimension.
    destruct (fragment_named fs dirname filename Hnamed)
      as (desc & name & Hres & Hfrag & Hname).
    rewrite Hdimension. cbn [String.eqb Ascii.eqb Bool.eqb orb andb omap list_omap].
    rewrite Hfrag. cbn [omap list_omap]. rewrite app_nil_r.
    rewrite (load_object_file_appends_dimension fs dirname filename _ desc
               ds name Hext (or_intror Hdimension) Hres Hname).
    + by rewrite assembled_insert_dimensions.
    + by rewrite lookup_insert_ne, lookup_insert_eq.
  - apply String.eqb_eq in Hcube.
    destruct (fragment_named fs dirname filename Hnamed)
      as (desc & name & Hres & Hfrag & Hname).
    cbn [orb omap list_omap]. rewrite Hfrag. cbn [omap list_omap]. rewrite app_nil_r.
    rewrite (load_object_file_appends_cube fs dirname filename _ desc
               cs name Hext Hcube Hres Hname).
    + by rewrite insert_insert_eq.
    + by rewrite lookup_insert_eq.
  - cbn [orb omap list_omap]. rewrite !app_nil_r. unfold load_object_file.
    rewrite Hext, Hdim, Hdimension, Hcube. reflexivity.
Qed.

Lemma omap_filter_cons {A B} (f : A → option B) (P : A → bool) x l :
  omap f (List.filter P (x :: l)) =
  (omap f (List.filter P [x]) ++ omap f (List.filter P l))%list.
Proof. cbn [List.filter]. destruct (P x); [|done]. cbn. by destruct (f x). Qed.

(** The files of one directory. *)
Lemma foldM_load_object_file fs dirname filenames (main : dict)
    (ds cs : list dict) :
  forallb (λ filename,
           negb (is_fragment ["dim"; "dimension"; "cube"] filename)
           || from_option named false (fragment fs dirname filename))
          filenames = true →
  foldM (load_object_file fs dirname) filenames
    (JDict (<["cubes" := JList (JDict <$> cs)]>
              (<["dimensions" := JList (JDict <$> ds)]> main))) =
  Ok (JDict
        (<["cubes" :=
             JList (JDict <$>
                      (cs ++ omap (fragment fs dirname)
                               (List.filter (is_fragment ["cube"])
                                  filenames))%list)]>
           (<["dimensions" :=
                JList (JDict <$>
                         (ds ++ omap (fragment fs dirname)
                                  (List.filter
                                     (is_fragment ["dim"; "dimension"])
                                     filenames))%list)]> main))).
Proof.
  revert ds cs. induction filenames as [|filename filenames IH];
    intros ds cs Hnamed.
  { cbn. by rewrite !app_nil_r. }
  cbn [forallb] in Hnamed. apply andb_prop in Hnamed as [Hfile Hnamed].
  rewrite foldM_cons, (load_object_file_fragment _ _ _ _ _ _ Hfile), rbind_Ok.
  rewrite (IH _ _ Hnamed).
  rewrite (omap_filter_cons _ _ filename filenames).
  rewrite (omap_filter_cons _ (is_fragment ["dim"; "dimension"])
             filename filenames).
  by rewrite !app_assoc.
Qed.

(** The directories of the walk. *)
Lemma foldM_walk fs visited (main : dict) (ds cs : list dict) :
  named_fragments fs visited = true →
  foldM (λ model '(dirname, _, filenames),
         foldM (load_object_file fs dirname) filenames model)
        visited
        (JDict (<["cubes" := JList (JDict <$> cs)]>
                  (<["dimensions" := JList (JDict <$> ds)]> main))) =
  Ok (JDict
        (<["cubes" :=
             JList (JDict <$> (cs ++ fragments fs ["cube"] visited)%list)]>
           (<["dimensions" :=
                JList (JDict <$>
                         (ds ++ fragments fs ["dim"; "dimension"]
                                  visited)%list)]> main))).
Proof.
  revert ds cs. induction visited as [|[[dirname dirnames] filenames] visited IH];
    intros ds cs Hnamed.
  { cbn. by rewrite !app_nil_r. }
  unfold named_fragments in Hnamed. cbn [forallb] in Hnamed.
  apply andb_prop in Hnamed as [Hdir Hnamed].
  rewrite foldM_cons, (foldM_load_object_file _ _ _ _ _ _ Hdir), rbind_Ok.
  rewrite (IH _ _ Hnamed). unfold fragments. cbn [flat_map].
  by rewrite !app_assoc.
Qed.

(** The model that a bundle reads as is the main object with the objects of
    the dimension files appended to its dimensions and the objects of the
    cube files appended to its cubes, in the order of the walk; files with
    another extension or another prefix leave no trace, and no entry is
    dropped or merged. *)
Theorem bundle_is_main_model_plus_fragments fs path (main : dict)
    (dims cubes : list dict) :
  isdir fs path = true →
  exists_ fs (path_join path "model.json") = true →
  resource fs (path_join path "model.json") = Some (Some (JDict main)) →
  dget main "dimensions" (JList []) = JList (JDict <$> dims) →
  dget main "cubes" (JList []) = JList (JDict <$> cubes) →
  named_fragments fs (walk fs path) = true →
  read_model_metadata_bundle fs path =
  Ok (JDict
        (<["cubes" :=
             JList (JDict <$>
                      (cubes ++ fragments fs ["cube"] (walk fs path))%list)]>
           (<["dimensions" :=
                JList (JDict <$>
                         (dims ++ fragments fs ["dim"; "dimension"]
                                    (walk fs path))%list)]> main))).
Proof.
  intros Hdir Hexists Hmain Hdims Hcubes Hnamed.
  unfold read_model_metadata_bundle, _json_from_url.
  rewrite Hdir, Hexists, Hmain. cbn [negb rbind py_in].
  rewrite <- (foldM_walk fs (walk fs path) main dims cubes Hnamed).
  unfold dget in Hdims, Hcubes.
  destruct (main !! "dimensions") as [v|] eqn:Hv; cbn in Hdims.
  - subst v. rewrite bool_decide_eq_true_2 by eauto. cbn [rbind py_in].
    destruct (main !! "cubes") as [w|] eqn:Hw; cbn in Hcubes.
    + subst w. rewrite bool_decide_eq_true_2 by eauto. cbn [rbind].
      by rewrite !insert_id by (by rewrite ?insert_id).
    + injection Hcubes as Hc. symmetry in Hc. apply fmap_nil_inv in Hc.
      subst cubes. rewrite bool_decide_eq_false_2 by (by intros [? [=]]).
      cbn [rbind setitem]. by rewrite (insert_id main "dimensions").
  - injection Hdims as Hd. symmetry in Hd. apply fmap_nil_inv in Hd.
    subst dims. rewrite bool_decide_eq_false_2 by (by intros [? [=]]).
    cbn [rbind setitem py_in]. rewrite lookup_insert_ne by done.
    destruct (main !! "cubes") as [w|] eqn:Hw; cbn in Hcubes.
    + subst w. rewrite bool_decide_eq_true_2 by eauto. cbn [rbind].
      by rewrite (insert_id (<["dimensions" := _]> main) "cubes")
        by (by rewrite lookup_insert_ne).
    + injection Hcubes as Hc. symmetry in Hc. apply fmap_nil_inv in Hc.
      subst cubes. rewrite bool_decide_eq_false_2 by (by intros [? [=]]).
      cbn [rbind setitem]. done.
Qed.

(** The bundle [/n]: the main file's dimension comes first, the dimension
    file of the sub-directory after it; [dim.json] and the text file leave
    no trace. *)
Lemma bundle_is_main_model_plus_fragments_example :
  read_model_metadata_bundle nested_bundle_fs "/n" =
  Ok (obj [("name", JStr "n");
           ("dimensions", JList [obj [("name", JStr "date")];
                                 obj [("name", JStr "time")]]);
           ("cubes", JList [obj [("name", JStr "sales")]])]).
Proof.
  etrans.
  - apply (bundle_is_main_model_plus_fragments nested_bundle_fs "/n"
             (fields [("name", JStr "n");
                      ("dimensions", JList [obj [("name", JStr "date")]])])
             [fields [("name", JStr "date")]] []).
    + vm_compute. reflexivity.
    + vm_compute. reflexivity.
    + vm_compute. reflexivity.
    + vm_compute. reflexivity.
    + vm_compute. reflexivity.
    + vm_compute. reflexivity.
  - vm_compute. reflexivity.
Defined.

Lemma py_in_listed (name : string) (entries : list json) :
  JStr name ∈ entries → py_in (JStr name) (JList entries) = Ok true.
Proof.
  intros Hin. unfold py_in. f_equal. apply existsb_exists.
  exists (JStr name). split; [by apply list_elem_of_In|].
  cbn. apply String.eqb_refl.
Qed.

(** A file whose object is named like a bare string of the list it would
    join is refused: a cube file with the model error for a cube defined
    twice, a dimension file with a [TypeError], raised where the message of
    its model error is put together. *)
Theorem fragment_named_like_bare_string fs dirname filename
    (model desc : dict) (name : string) (entries : list json) :
  splitext_ext filename = ".json" →
  resource fs (path_join dirname filename) = Some (Some (JDict desc)) →
  desc !! "name" = Some (JStr name) →
  JStr name ∈ entries →
  (split_prefix filename = "cube" →
   model !! "cubes" = Some (JList entries) →
   load_object_file fs dirname (JDict model) filename =
     Raise (ModelError
              (CubeDefinedMultipleTimes (JStr name)
                 (path_join dirname filename)))) ∧
  (split_prefix filename = "dim" ∨ split_prefix filename = "dimension" →
   model !! "dimensions" = Some (JList entries) →
   load_object_file fs dirname (JDict model) filename = Raise TypeError).
Proof.
  intros Hext Hres Hname Hin. split.
  - intros Hprefix Hcubes. unfold load_object_file.
    rewrite Hext, Hprefix. cbn [String.eqb Ascii.eqb Bool.eqb negb orb].
    unfold _json_from_url. rewrite Hres. cbn [rbind getitem].
    rewrite Hname, Hcubes. cbn [rbind].
    by rewrite py_in_listed.
  - intros Hprefix Hdims. unfold load_object_file.
    rewrite Hext. cbn [String.eqb Ascii.eqb Bool.eqb negb].
    assert (String.eqb (split_prefix filename) "dim" ||
            String.eqb (split_prefix filename) "dimension" = true) as ->.
    { destruct Hprefix as [-> | ->]; reflexivity. }
    unfold _json_from_url. rewrite Hres. cbn [rbind getitem].
    rewrite Hname, Hdims. cbn [rbind].
    by rewrite py_in_listed.
Qed.

(** The directory [/c] read into a model that lists "time" and "sales" by
    bare strings. *)
Lemma fragment_named_like_bare_string_example :
  load_object_file clash_fs "/c" (JDict model_bare_names) "cube_sales.json" =
    Raise (ModelError
             (CubeDefinedMultipleTimes (JStr "sales") "/c/cube_sales.json")) ∧
  load_object_file clash_fs "/c" (JDict model_bare_names) "dim_time.json" =
    Raise TypeError.
Proof.
  split.
  - apply (fragment_named_like_bare_string clash_fs "/c" "cube_sales.json"
             model_bare_names (fields [("name", JStr "sales")]) "sales"
             [JStr "sales"]
             ltac:(vm_compute; reflexivity) ltac:(vm_compute; reflexivity)
             ltac:(vm_compute; reflexivity) ltac:(apply list_elem_of_here)).
    + vm_compute. reflexivity.
    + vm_compute. reflexivity.
  - apply (fragment_named_like_bare_string clash_fs "/c" "dim_time.json"
             model_bare_names (fields [("name", JStr "time")]) "time"
             [JStr "time"]
             ltac:(vm_compute; reflexivity) ltac:(vm_compute; reflexivity)
             ltac:(vm_compute; reflexivity) ltac:(apply list_elem_of_here)).
    + left. vm_compute. reflexivity.
    + vm_compute. reflexivity.
Defined.
